(** * agenai-trader: the deterministic decision core

    A shallow embedding of the signal-to-action pipeline of the repository:
    the return helpers of [packages/features/src/rolling.ts], the zod
    contracts of [packages/core/src/types.ts], the threshold/ATR policy of
    [packages/plugins/src/policy/thresholdAtr.ts] and the two alpha plugins
    [packages/plugins/src/alpha/macd.ts] and [packages/plugins/src/alpha/ar4.ts].

    JavaScript numbers are IEEE-754 binary64 values; they are modelled by the
    primitive floats of the kernel, so that every definition below evaluates
    on concrete inputs exactly as the program does. *)

From Stdlib Require Import ZArith Lia Bool List Ascii String.
From Stdlib Require Import Floats.
From stdpp Require Import base option list strings gmap.

Set Warnings "-inexact-float".

Local Open Scope Z_scope.

(* ===================================================================== *)
(** ** JavaScript numbers *)
(* ===================================================================== *)

Module JS.

(** A JavaScript [number]. *)
Abbreviation number := float.

(** [a < b], [a > b], [a <= b], [a >= b]: false as soon as one side is NaN. *)
Definition lt (a b : number) : bool := PrimFloat.ltb a b.
Definition gt (a b : number) : bool := PrimFloat.ltb b a.
Definition le (a b : number) : bool := PrimFloat.leb a b.
Definition ge (a b : number) : bool := PrimFloat.leb b a.

(** [a === b] on numbers: IEEE equality ([NaN] differs from itself, the two
    zeros are equal). *)
Definition strict_eq (a b : number) : bool := PrimFloat.eqb a b.

(** [isNaN(x)] for a number. *)
Definition isNaN (x : number) : bool := PrimFloat.is_nan x.

Definition NaN : number := PrimFloat.nan.

(** [Math.abs]. *)
Definition Math_abs (x : number) : number := PrimFloat.abs x.

(** Is [x] the negative zero? *)
Definition is_neg_zero (x : number) : bool :=
  match PrimFloat.classify x with
  | NZero => true
  | _ => false
  end.

(** [Math.min(a, b)]: NaN if either argument is NaN, and [-0] is smaller
    than [+0]. *)
Definition Math_min (a b : number) : number :=
  if isNaN a || isNaN b then NaN
  else if lt a b then a
  else if lt b a then b
  else if is_neg_zero a then a else b.

(** [Math.max(a, b)]: NaN if either argument is NaN, and [+0] is larger
    than [-0]. *)
Definition Math_max (a b : number) : number :=
  if isNaN a || isNaN b then NaN
  else if lt a b then b
  else if lt b a then a
  else if is_neg_zero a then b else a.

(** [Number.isInteger(x)]: finite, and no fractional bit in the mantissa. *)
Definition isInteger (x : number) : bool :=
  match Prim2SF x with
  | S754_zero _ => true
  | S754_finite _ m e =>
      if 0 <=? e then true else (Z.pos m mod 2 ^ (- e) =? 0)
  | _ => false
  end.

(** The number of an array length or index. *)
Definition of_nat (n : nat) : number :=
  PrimFloat.of_uint63 (Uint63.of_Z (Z.of_nat n)).

End JS.

(* ===================================================================== *)
(** ** packages/features/src/rolling.ts: return helpers *)
(* ===================================================================== *)

Module Rolling.
Import JS.

Section WithLog.

(** [Math.log], a builtin the language only specifies up to an
    implementation-chosen approximation. *)
Variable Math_log : number -> number.

Definition percentChange (current previous : number) : number :=
  if strict_eq previous 0%float then NaN
  else (((current - previous) / previous) * 100)%float.

Definition simpleReturn (current previous : number) : number :=
  if strict_eq previous 0%float then NaN
  else ((current - previous) / previous)%float.

Definition logReturn (current previous : number) : number :=
  if le current 0%float || le previous 0%float then NaN
  else Math_log (current / previous)%float.

End WithLog.

End Rolling.

(* ===================================================================== *)
(** ** Exceptions and the state-and-exception monad of method calls *)
(* ===================================================================== *)

(** What a call can throw: the [ZodError] of a failed [Schema.parse], or a
    plain [Error] with its message. *)
Inductive Error : Type :=
  | ZodError (schema : string)
  | JsError (message : string).

(** How a call completes. *)
Inductive completion (A : Type) : Type :=
  | Return (a : A)
  | Throw (e : Error).
Arguments Return {A} a.
Arguments Throw {A} e.

(** A method body: it reads and writes the fields of [this] (of type [S]) and
    either returns or throws; the writes made before a throw persist. *)
Definition M (S A : Type) : Type := S -> S * completion A.

Definition ret {S A} (a : A) : M S A := fun s => (s, Return a).
Definition throw {S A} (e : Error) : M S A := fun s => (s, Throw e).
Definition get {S} : M S S := fun s => (s, Return s).
Definition put {S} (s' : S) : M S unit := fun _ => (s', Return tt).
Definition lift {S A} (c : completion A) : M S A := fun s => (s, c).
Definition bind {S A B} (m : M S A) (k : A -> M S B) : M S B :=
  fun s =>
    match m s with
    | (s', Return a) => k a s'
    | (s', Throw e) => (s', Throw e)
    end.

Declare Scope js_scope.
Delimit Scope js_scope with js.
Notation "x <- c ;; k" := (bind c (fun x => k))
  (at level 100, c at next level, right associativity) : js_scope.
Notation "c ;;; k" := (bind c (fun _ => k))
  (at level 100, right associativity) : js_scope.

(* ===================================================================== *)
(** ** packages/core/src/types.ts: the zod contracts *)
(* ===================================================================== *)

Module Core.
Import JS.

(** *** zod's number and string checks *)

(** [z.number()]: the type check refuses NaN. *)
Definition z_number (x : number) : bool := negb (isNaN x).
(** [.positive()]: refused when [x <= 0]. *)
Definition z_positive (x : number) : bool := z_number x && negb (le x 0%float).
(** [.nonnegative()]: refused when [x < 0]. *)
Definition z_nonnegative (x : number) : bool := z_number x && negb (lt x 0%float).
(** [.min(m)]: refused when [x < m]. *)
Definition z_min (m x : number) : bool := z_number x && negb (lt x m).
(** [.max(m)]: refused when [x > m]. *)
Definition z_max (m x : number) : bool := z_number x && negb (gt x m).
(** [.int()]: [Number.isInteger]. *)
Definition z_int (x : number) : bool := z_number x && isInteger x.
(** [z.string().min(1)]. *)
Definition z_string_min1 (s : string) : bool :=
  match s with
  | EmptyString => false
  | String _ _ => true
  end.

Definition is_digit (c : ascii) : bool :=
  let n := nat_of_ascii c in (48 <=? n)%nat && (n <=? 57)%nat.
Definition is_tf_unit (c : ascii) : bool :=
  match c with
  | "s"%char | "m"%char | "h"%char | "d"%char => true
  | _ => false
  end.

(** The regular expression [/^\d+[smhd]$/]: [seen] tells whether a digit has
    been read already. *)
Fixpoint tf_regex_from (seen : bool) (s : string) : bool :=
  match s with
  | EmptyString => false
  | String c rest =>
      if is_digit c then tf_regex_from true rest
      else seen && is_tf_unit c &&
           match rest with EmptyString => true | _ => false end
  end.
Definition tf_regex (s : string) : bool := tf_regex_from false s.

(** *** Features *)

Record Features : Type := {
  f_t : number;
  f_exch : string;
  f_symbol : string;
  f_tf : string;
  f_vals : gmap string number;
  f_regime : option string;
}.

Definition FeaturesSchema_ok (f : Features) : bool :=
  z_int (f_t f) && z_positive (f_t f) &&
  z_string_min1 (f_exch f) && z_string_min1 (f_symbol f) &&
  tf_regex (f_tf f) &&
  forallb (fun kv => z_number (snd kv)) (map_to_list (f_vals f)).

Definition FeaturesSchema_parse (f : Features) : completion Features :=
  if FeaturesSchema_ok f then Return f else Throw (ZodError "Features").

(** *** AlphaSignal *)

Record AlphaSignal : Type := {
  sig_id : string;
  sig_t : number;
  sig_symbol : string;
  sig_exch : string;
  sig_tf : string;
  sig_score : number;
  sig_conf : number;
  sig_horizon_sec : number;
  sig_explain : option string;
}.

Definition AlphaSignalSchema_ok (s : AlphaSignal) : bool :=
  z_string_min1 (sig_id s) &&
  z_int (sig_t s) && z_positive (sig_t s) &&
  z_string_min1 (sig_symbol s) && z_string_min1 (sig_exch s) &&
  tf_regex (sig_tf s) &&
  z_min (-1)%float (sig_score s) && z_max 1%float (sig_score s) &&
  z_min 0%float (sig_conf s) && z_max 1%float (sig_conf s) &&
  z_int (sig_horizon_sec s) && z_positive (sig_horizon_sec s).

Definition AlphaSignalSchema_parse (s : AlphaSignal) : completion AlphaSignal :=
  if AlphaSignalSchema_ok s then Return s else Throw (ZodError "AlphaSignal").

(** *** Actions *)

Inductive Side : Type := buy | sell.

Definition Side_eqb (a b : Side) : bool :=
  match a, b with
  | buy, buy | sell, sell => true
  | _, _ => false
  end.

Record Bracket : Type := {
  tp : option number;
  sl : option number;
  trail : option number;
}.

Definition z_optional {A} (check : A -> bool) (x : option A) : bool :=
  match x with
  | None => true
  | Some a => check a
  end.

Definition BracketSchema_ok (b : Bracket) : bool :=
  z_optional z_positive (tp b) && z_optional z_positive (sl b) &&
  z_optional z_positive (trail b).

(** A value of the free-form [metadata] record. *)
Inductive MetaValue : Type :=
  | MStr (s : string)
  | MNum (x : number).

Record Action : Type := {
  a_t : number;
  a_symbol : string;
  a_exch : string;
  a_side : Side;
  a_size : number;
  a_entry : option number;
  a_bracket : option Bracket;
  a_metadata : option (list (string * MetaValue));
}.

Definition ActionSchema_ok (a : Action) : bool :=
  z_int (a_t a) && z_positive (a_t a) &&
  z_string_min1 (a_symbol a) && z_string_min1 (a_exch a) &&
  z_positive (a_size a) &&
  z_optional z_positive (a_entry a) &&
  z_optional BracketSchema_ok (a_bracket a).

Definition ActionSchema_parse (a : Action) : completion Action :=
  if ActionSchema_ok a then Return a else Throw (ZodError "Action").

End Core.

(* ===================================================================== *)
(** ** packages/plugins/src/policy/thresholdAtr.ts *)
(* ===================================================================== *)

Module Policy.
Import JS Core.
Local Open Scope js_scope.

(** The configuration as a caller writes it: every field may be left out. *)
Record ThresholdAtrConfigInput : Type := {
  in_enterThreshold : option number;
  in_exitThreshold : option number;
  in_fixedNotional : option number;
  in_useAtrSizing : option bool;
  in_atrSizingMultiplier : option number;
  in_atrTpMultiplier : option number;
  in_atrSlMultiplier : option number;
  in_maxSize : option number;
}.

(** The parsed configuration, defaults filled in. *)
Record ThresholdAtrConfig : Type := {
  enterThreshold : number;
  exitThreshold : number;
  fixedNotional : number;
  useAtrSizing : bool;
  atrSizingMultiplier : number;
  atrTpMultiplier : number;
  atrSlMultiplier : number;
  maxSize : number;
}.

Definition ThresholdAtrConfigSchema_ok (c : ThresholdAtrConfig) : bool :=
  z_min 0%float (enterThreshold c) && z_max 1%float (enterThreshold c) &&
  z_min 0%float (exitThreshold c) && z_max 1%float (exitThreshold c) &&
  z_positive (fixedNotional c) &&
  z_positive (atrSizingMultiplier c) &&
  z_positive (atrTpMultiplier c) &&
  z_positive (atrSlMultiplier c) &&
  z_positive (maxSize c).

Definition ThresholdAtrConfigSchema_parse (i : ThresholdAtrConfigInput)
  : completion ThresholdAtrConfig :=
  let c := {|
    enterThreshold := default 0.5%float (in_enterThreshold i);
    exitThreshold := default 0.3%float (in_exitThreshold i);
    fixedNotional := default 1000%float (in_fixedNotional i);
    useAtrSizing := default false (in_useAtrSizing i);
    atrSizingMultiplier := default 1.0%float (in_atrSizingMultiplier i);
    atrTpMultiplier := default 2.0%float (in_atrTpMultiplier i);
    atrSlMultiplier := default 1.0%float (in_atrSlMultiplier i);
    maxSize := default 10%float (in_maxSize i);
  |} in
  if ThresholdAtrConfigSchema_ok c then Return c
  else Throw (ZodError "ThresholdAtrConfig").

(** The object literal [{}]. *)
Definition empty_input : ThresholdAtrConfigInput :=
  {| in_enterThreshold := None; in_exitThreshold := None;
     in_fixedNotional := None; in_useAtrSizing := None;
     in_atrSizingMultiplier := None; in_atrTpMultiplier := None;
     in_atrSlMultiplier := None; in_maxSize := None |}.

(** A parsed configuration passed where an input is expected. *)
Definition as_input (c : ThresholdAtrConfig) : ThresholdAtrConfigInput :=
  {| in_enterThreshold := Some (enterThreshold c);
     in_exitThreshold := Some (exitThreshold c);
     in_fixedNotional := Some (fixedNotional c);
     in_useAtrSizing := Some (useAtrSizing c);
     in_atrSizingMultiplier := Some (atrSizingMultiplier c);
     in_atrTpMultiplier := Some (atrTpMultiplier c);
     in_atrSlMultiplier := Some (atrSlMultiplier c);
     in_maxSize := Some (maxSize c) |}.

Record PolicyState : Type := {
  side : option Side;
  size : number;
}.

(** The fields of an instance. *)
Record ThresholdAtrPolicy : Type := {
  config : ThresholdAtrConfig;
  state : PolicyState;
}.

Definition flat : PolicyState := {| side := None; size := 0%float |}.

Definition hysteresis_message : string :=
  "enterThreshold must be >= exitThreshold for proper hysteresis".

(** [new ThresholdAtrPolicy(config)]; [None] is the call without argument,
    which takes the default parameter [ThresholdAtrConfigSchema.parse({})]. *)
Definition constructor (config : option ThresholdAtrConfigInput)
  : completion ThresholdAtrPolicy :=
  let arg :=
    match config with
    | Some i => Return i
    | None =>
        match ThresholdAtrConfigSchema_parse empty_input with
        | Return c => Return (as_input c)
        | Throw e => Throw e
        end
    end in
  match arg with
  | Throw e => Throw e
  | Return i =>
      match ThresholdAtrConfigSchema_parse i with
      | Throw e => Throw e
      | Return c =>
          if lt (enterThreshold c) (exitThreshold c)
          then Throw (JsError hysteresis_message)
          else Return {| config := c; state := flat |}
      end
  end.

(** [this.state.side = s; this.state.size = z]. *)
Definition set_state (s : option Side) (z : number) : M ThresholdAtrPolicy unit :=
  fun this => ({| config := config this; state := {| side := s; size := z |} |},
               Return tt).

Definition computeBracket (c : ThresholdAtrConfig)
    (entryPrice atr : number) (sd : Side) : Bracket :=
  let tpDistance := (atr * atrTpMultiplier c)%float in
  let slDistance := (atr * atrSlMultiplier c)%float in
  match sd with
  | buy => {| tp := Some (entryPrice + tpDistance)%float;
              sl := Some (entryPrice - slDistance)%float;
              trail := None |}
  | sell => {| tp := Some (entryPrice - tpDistance)%float;
               sl := Some (entryPrice + slDistance)%float;
               trail := None |}
  end.

(** The size of a new position, clamped to [maxSize]. *)
Definition openSize (c : ThresholdAtrConfig) (currentPrice atr : number) : number :=
  let sz :=
    if useAtrSizing c then
      let riskAmount := (atr * atrSizingMultiplier c)%float in
      (fixedNotional c / (currentPrice * riskAmount))%float
    else (fixedNotional c / currentPrice)%float in
  Math_min sz (maxSize c).

Definition buildOpenAction (signal : AlphaSignal) (features : Features)
    (currentPrice atr : number) (direction : Side) : M ThresholdAtrPolicy Action :=
  this <- get ;;
  let sd := direction in
  let sz := openSize (config this) currentPrice atr in
  let bracket := computeBracket (config this) currentPrice atr sd in
  set_state (Some sd) sz ;;;
  let action := {|
    a_t := sig_t signal;
    a_symbol := sig_symbol signal;
    a_exch := sig_exch signal;
    a_side := sd;
    a_size := sz;
    a_entry := None;
    a_bracket := Some bracket;
    a_metadata := Some [("signalId", MStr (sig_id signal));
                        ("signalScore", MNum (sig_score signal));
                        ("signalConf", MNum (sig_conf signal));
                        ("atr", MNum atr)];
  |} in
  lift (ActionSchema_parse action).

Definition buildCloseAction (signal : AlphaSignal) (_features : Features)
    (currentPrice : number) : M ThresholdAtrPolicy Action :=
  this <- get ;;
  match side (state this) with
  | None => throw (JsError "Cannot close position: already flat")
  | Some cur =>
      if strict_eq (size (state this)) 0%float
      then throw (JsError "Cannot close position: already flat")
      else
        let closeSide := match cur with buy => sell | sell => buy end in
        let closeSize := size (state this) in
        set_state None 0%float ;;;
        let action := {|
          a_t := sig_t signal;
          a_symbol := sig_symbol signal;
          a_exch := sig_exch signal;
          a_side := closeSide;
          a_size := closeSize;
          a_entry := Some currentPrice;
          a_bracket := None;
          a_metadata := Some [("signalId", MStr (sig_id signal));
                              ("reason", MStr "exit_threshold")];
        |} in
        lift (ActionSchema_parse action)
  end.

Definition generateAction (signal : AlphaSignal) (features : Features)
  : M ThresholdAtrPolicy (option Action) :=
  lift (AlphaSignalSchema_parse signal) ;;;
  lift (FeaturesSchema_parse features) ;;;
  match f_vals features !! "atr_14", f_vals features !! "close" with
  | Some atr, Some currentPrice =>
      if isNaN atr || isNaN currentPrice then ret None
      else
        let absScore := Math_abs (sig_score signal) in
        let direction := if gt (sig_score signal) 0%float then buy else sell in
        this <- get ;;
        match side (state this) with
        | None =>
            if ge absScore (enterThreshold (config this)) then
              a <- buildOpenAction signal features currentPrice atr direction ;;
              ret (Some a)
            else ret None
        | Some cur =>
            let currentDirection := match cur with buy => buy | sell => sell end in
            if negb (Side_eqb direction currentDirection)
               && ge absScore (enterThreshold (config this))
            then
              closeAction <- buildCloseAction signal features currentPrice ;;
              set_state None 0%float ;;;
              a <- buildOpenAction signal features currentPrice atr direction ;;
              ret (Some a)
            else if lt absScore (exitThreshold (config this)) then
              a <- buildCloseAction signal features currentPrice ;;
              ret (Some a)
            else ret None
        end
  | _, _ => ret None
  end.

Definition getState : M ThresholdAtrPolicy PolicyState :=
  this <- get ;; ret {| side := side (state this); size := size (state this) |}.

Definition reset : M ThresholdAtrPolicy unit := set_state None 0%float.

Definition isFlat : M ThresholdAtrPolicy bool :=
  this <- get ;;
  ret (match side (state this) with None => true | Some _ => false end).

(** *** Vocabulary of the specification *)


(** A policy object whose configuration is one the constructor accepted. *)
Definition constructed (p : ThresholdAtrPolicy) : Prop :=
  exists i p0, constructor i = Return p0 /\ config p = config p0.

(** InPosition on side [cur]: a side, and a size above zero. *)
Definition inPosition (p : ThresholdAtrPolicy) (cur : Side) : Prop :=
  side (state p) = Some cur /\ z_positive (size (state p)) = true.

(** The other side. *)
Definition opposite (s : Side) : Side :=
  match s with buy => sell | sell => buy end.

(** "[side] is null iff [size] is exactly zero". *)
Definition sideNullIffSizeZero (st : PolicyState) : Prop :=
  side st = None <-> strict_eq (size st) 0%float = true.

(** The action [buildOpenAction] assembles. *)
Definition openAction (c : ThresholdAtrConfig) (signal : AlphaSignal)
    (currentPrice atr : number) (direction : Side) : Action :=
  {| a_t := sig_t signal;
     a_symbol := sig_symbol signal;
     a_exch := sig_exch signal;
     a_side := direction;
     a_size := openSize c currentPrice atr;
     a_entry := None;
     a_bracket := Some (computeBracket c currentPrice atr direction);
     a_metadata := Some [("signalId", MStr (sig_id signal));
                         ("signalScore", MNum (sig_score signal));
                         ("signalConf", MNum (sig_conf signal));
                         ("atr", MNum atr)] |}.

(** The action [buildCloseAction] assembles for a position on side [cur]. *)
Definition closeAction (signal : AlphaSignal) (currentPrice : number)
    (cur : Side) (closeSize : number) : Action :=
  {| a_t := sig_t signal;
     a_symbol := sig_symbol signal;
     a_exch := sig_exch signal;
     a_side := opposite cur;
     a_size := closeSize;
     a_entry := Some currentPrice;
     a_bracket := None;
     a_metadata := Some [("signalId", MStr (sig_id signal));
                         ("reason", MStr "exit_threshold")] |}.

End Policy.

(* ===================================================================== *)
(** ** packages/plugins/src/alpha/macd.ts *)
(* ===================================================================== *)

Module MACD.
Import JS Core.
Local Open Scope js_scope.

Record MACDConfigInput : Type := {
  in_minHistogram : option number;
  in_horizonSec : option number;
  in_useCrossover : option bool;
}.

Record MACDConfig : Type := {
  minHistogram : number;
  horizonSec : number;
  useCrossover : bool;
}.

Definition MACDConfigSchema_ok (c : MACDConfig) : bool :=
  z_nonnegative (minHistogram c) &&
  z_int (horizonSec c) && z_positive (horizonSec c).

Definition MACDConfigSchema_parse (i : MACDConfigInput) : completion MACDConfig :=
  let c := {|
    minHistogram := default 0.0001%float (in_minHistogram i);
    horizonSec := default 300%float (in_horizonSec i);
    useCrossover := default true (in_useCrossover i);
  |} in
  if MACDConfigSchema_ok c then Return c else Throw (ZodError "MACDConfig").

Definition empty_input : MACDConfigInput :=
  {| in_minHistogram := None; in_horizonSec := None; in_useCrossover := None |}.

Definition as_input (c : MACDConfig) : MACDConfigInput :=
  {| in_minHistogram := Some (minHistogram c);
     in_horizonSec := Some (horizonSec c);
     in_useCrossover := Some (useCrossover c) |}.

Record MACDState : Type := {
  prevMacd : option number;
  prevSignal : option number;
  prevHistogram : option number;
}.

Record MACDAlpha : Type := {
  config : MACDConfig;
  state : MACDState;
}.

Definition initial : MACDState :=
  {| prevMacd := None; prevSignal := None; prevHistogram := None |}.

Definition constructor (config : option MACDConfigInput) : completion MACDAlpha :=
  let arg :=
    match config with
    | Some i => Return i
    | None =>
        match MACDConfigSchema_parse empty_input with
        | Return c => Return (as_input c)
        | Throw e => Throw e
        end
    end in
  match arg with
  | Throw e => Throw e
  | Return i =>
      match MACDConfigSchema_parse i with
      | Throw e => Throw e
      | Return c => Return {| config := c; state := initial |}
      end
  end.

Inductive Crossover : Type := bullish | bearish.

Definition detectCrossover (st : MACDState) (macd signal : number)
  : option Crossover :=
  match prevMacd st, prevSignal st with
  | Some pm, Some ps =>
      let wasBelowSignal := lt pm ps in
      let isAboveSignal := gt macd signal in
      if wasBelowSignal && isAboveSignal then Some bullish
      else
        let wasAboveSignal := gt pm ps in
        let isBelowSignal := lt macd signal in
        if wasAboveSignal && isBelowSignal then Some bearish
        else None
  | _, _ => None
  end.

Definition updateState (macd signal histogram : number) : M MACDAlpha unit :=
  fun this =>
    ({| config := config this;
        state := {| prevMacd := Some macd; prevSignal := Some signal;
                    prevHistogram := Some histogram |} |},
     Return tt).

Definition reset : M MACDAlpha unit :=
  fun this => ({| config := config this; state := initial |}, Return tt).

Definition getState : M MACDAlpha MACDState :=
  this <- get ;;
  ret {| prevMacd := prevMacd (state this); prevSignal := prevSignal (state this);
         prevHistogram := prevHistogram (state this) |}.

Section WithBuiltins.

(** [Number.prototype.toFixed] and the conversion of a number inside a
    template literal: pure functions of the language. *)
Variable toFixed : number -> nat -> string.
Variable Number_toString : number -> string.

Record HistogramSignal : Type := {
  hs_score : number;
  hs_conf : number;
  hs_explain : string;
}.

Definition computeHistogramSignal (st : MACDState) (histogram : number)
  : HistogramSignal :=
  let direction := if gt histogram 0%float then 1%float else (-1)%float in
  let momentumStrength :=
    match prevHistogram st with
    | Some ph =>
        let histogramChange := (histogram - ph)%float in
        if (gt direction 0%float && gt histogramChange 0%float)
           || (lt direction 0%float && lt histogramChange 0%float)
        then 0.7%float
        else 0.3%float
    | None => 0.5%float
    end in
  let score := Math_max (-1)%float (Math_min 1%float (histogram * 1000)%float) in
  let conf := momentumStrength in
  let momentum :=
    if gt momentumStrength 0.5%float then "strengthening" else "weakening" in
  let explain :=
    if gt direction 0%float
    then "MACD histogram positive (" +:+ toFixed histogram 6 +:+ "), momentum "
         +:+ momentum
    else "MACD histogram negative (" +:+ toFixed histogram 6 +:+ "), momentum "
         +:+ momentum in
  {| hs_score := score; hs_conf := conf; hs_explain := explain |}.

Definition generateSignal (features : Features) : M MACDAlpha (option AlphaSignal) :=
  match f_vals features !! "macd", f_vals features !! "macd_signal",
        f_vals features !! "macd_histogram" with
  | Some macd, Some signal, Some histogram =>
      if isNaN macd || isNaN signal || isNaN histogram then ret None
      else
        this <- get ;;
        if lt (Math_abs histogram) (minHistogram (config this)) then
          updateState macd signal histogram ;;;
          ret None
        else
          let result :=
            match useCrossover (config this), prevMacd (state this) with
            | true, Some _ =>
                match detectCrossover (state this) macd signal with
                | Some bullish =>
                    {| hs_score := 1%float; hs_conf := 0.8%float;
                       hs_explain := "MACD bullish crossover detected" |}
                | Some bearish =>
                    {| hs_score := (-1)%float; hs_conf := 0.8%float;
                       hs_explain := "MACD bearish crossover detected" |}
                | None => computeHistogramSignal (state this) histogram
                end
            | _, _ => computeHistogramSignal (state this) histogram
            end in
          updateState macd signal histogram ;;;
          if strict_eq (hs_score result) 0%float || strict_eq (hs_conf result) 0%float
          then ret None
          else
            let alphaSignal := {|
              sig_id := "macd-" +:+ Number_toString (f_t features);
              sig_t := f_t features;
              sig_symbol := f_symbol features;
              sig_exch := f_exch features;
              sig_tf := f_tf features;
              sig_score := hs_score result;
              sig_conf := hs_conf result;
              sig_horizon_sec := horizonSec (config this);
              sig_explain := Some (hs_explain result);
            |} in
            a <- lift (AlphaSignalSchema_parse alphaSignal) ;;
            ret (Some a)
  | _, _, _ => ret None
  end.

(** *** Vocabulary of the specification *)


End WithBuiltins.

(** The state that holds an observation as the previous one. *)
Definition observed (macd signal histogram : number) : MACDState :=
  {| prevMacd := Some macd; prevSignal := Some signal;
     prevHistogram := Some histogram |}.

(** One of the three MACD values is missing from the record, or is NaN. *)
Definition missingOrNaN (features : Features) : Prop :=
  exists k, (k = "macd" \/ k = "macd_signal" \/ k = "macd_histogram")
            /\ (f_vals features !! k = None
                \/ exists v, f_vals features !! k = Some v /\ isNaN v = true).

End MACD.

(* ===================================================================== *)
(** ** packages/plugins/src/alpha/ar4.ts *)
(* ===================================================================== *)

Module AR4.
Import JS Core.
Local Open Scope js_scope.

Record AR4ConfigInput : Type := {
  in_fitWindow : option number;
  in_horizonSec : option number;
  in_minRSquared : option number;
}.

Record AR4Config : Type := {
  fitWindow : number;
  horizonSec : number;
  minRSquared : number;
}.

Definition AR4ConfigSchema_ok (c : AR4Config) : bool :=
  z_int (fitWindow c) && z_positive (fitWindow c) &&
  z_int (horizonSec c) && z_positive (horizonSec c) &&
  z_min 0%float (minRSquared c) && z_max 1%float (minRSquared c).

Definition AR4ConfigSchema_parse (i : AR4ConfigInput) : completion AR4Config :=
  let c := {|
    fitWindow := default 100%float (in_fitWindow i);
    horizonSec := default 300%float (in_horizonSec i);
    minRSquared := default 0.1%float (in_minRSquared i);
  |} in
  if AR4ConfigSchema_ok c then Return c else Throw (ZodError "AR4Config").

Definition empty_input : AR4ConfigInput :=
  {| in_fitWindow := None; in_horizonSec := None; in_minRSquared := None |}.

Definition as_input (c : AR4Config) : AR4ConfigInput :=
  {| in_fitWindow := Some (fitWindow c);
     in_horizonSec := Some (horizonSec c);
     in_minRSquared := Some (minRSquared c) |}.

Record AR4Coefficients : Type := {
  beta0 : number;
  beta1 : number;
  beta2 : number;
  beta3 : number;
  beta4 : number;
  rSquared : number;
}.

(** *** Arrays of numbers *)

Abbreviation vector := (list number).
Abbreviation matrix := (list (list number)).

(** [v[i]] read as a number: an index out of range reads [undefined], which
    every arithmetic use turns into NaN. *)
Definition at1 (v : vector) (i : nat) : number := default NaN (v !! i).
(** [m[r][c]]. *)
Definition at2 (m : matrix) (r c : nat) : number :=
  default NaN (m !! r ≫= fun row => row !! c).
(** [m[r][c] = x]. *)
Definition set2 (m : matrix) (r c : nat) (x : number) : matrix :=
  match m !! r with
  | Some row => <[r := <[c := x]> row]> m
  | None => m
  end.

(** [for (let i = from; i < to; i++)]: the indices visited. *)
Definition range (from to : nat) : list nat := seq from (to - from).

Definition kronecker (i j : nat) : number :=
  if Nat.eqb i j then 1%float else 0%float.

(** *** invertMatrix *)

Definition identity (n : nat) : matrix :=
  map (fun i => map (fun j => kronecker i j) (range 0 n)) (range 0 n).

Definition augment (m : matrix) : matrix :=
  let n := length m in
  imap (fun i row => row ++ map (fun j => kronecker i j) (range 0 n)) m.

(** Partial pivoting: the row, from [i] down, whose entry in column [i] is
    the largest in magnitude (the first such row). *)
Definition pivotRow (n i : nat) (augmented : matrix) : nat :=
  fold_left
    (fun maxRow k =>
       if gt (Math_abs (at2 augmented k i)) (Math_abs (at2 augmented maxRow i))
       then k else maxRow)
    (range (i + 1) n) i.

(** [[a[i], a[j]] = [a[j], a[i]]]. *)
Definition swapRows (i j : nat) (augmented : matrix) : matrix :=
  match augmented !! i, augmented !! j with
  | Some ri, Some rj => <[j := ri]> (<[i := rj]> augmented)
  | _, _ => augmented
  end.

Definition scalePivotRow (n i : nat) (augmented : matrix) : matrix :=
  let pivot := at2 augmented i i in
  fold_left
    (fun aug j => set2 aug i j (at2 aug i j / pivot)%float)
    (range 0 (2 * n)) augmented.

Definition eliminateColumn (n i : nat) (augmented : matrix) : matrix :=
  fold_left
    (fun aug k =>
       if Nat.eqb k i then aug
       else
         let factor := at2 aug k i in
         fold_left
           (fun aug' j => set2 aug' k j (at2 aug' k j - factor * at2 aug' i j)%float)
           (range 0 (2 * n)) aug)
    (range 0 n) augmented.

Definition singular_threshold : number := 1e-10%float.

(** One turn of the forward-elimination loop; [None] is the early return of
    the singular case. *)
Definition eliminationStep (n : nat) (augmented : matrix) (i : nat)
  : option matrix :=
  let maxRow := pivotRow n i augmented in
  let augmented := swapRows i maxRow augmented in
  if lt (Math_abs (at2 augmented i i)) singular_threshold then None
  else Some (eliminateColumn n i (scalePivotRow n i augmented)).

Fixpoint forwardElimination (n : nat) (steps : list nat) (augmented : matrix)
  : option matrix :=
  match steps with
  | [] => Some augmented
  | i :: rest =>
      match eliminationStep n augmented i with
      | None => None
      | Some augmented' => forwardElimination n rest augmented'
      end
  end.

Definition invertMatrix (m : matrix) : matrix :=
  let n := length m in
  match forwardElimination n (range 0 n) (augment m) with
  | None => identity n
  | Some augmented => map (fun row => drop n row) augmented
  end.

(** *** solveOLS *)

(** [k = X[0].length]; the caller never passes an empty design matrix. *)
Definition columns (X : matrix) : nat :=
  match X with [] => 0%nat | row :: _ => length row end.

(** The normal-equations matrix [X'X], summed row by row of [X]. *)
Definition XtX (X : matrix) : matrix :=
  let n := length X in
  let k := columns X in
  map (fun i =>
         map (fun j =>
                fold_left (fun acc m => (acc + at2 X m i * at2 X m j)%float)
                          (range 0 n) 0%float)
             (range 0 k))
      (range 0 k).

(** The vector [X'y]. *)
Definition Xty (X : matrix) (y : vector) : vector :=
  let n := length X in
  let k := columns X in
  map (fun i =>
         fold_left (fun acc m => (acc + at2 X m i * at1 y m)%float)
                   (range 0 n) 0%float)
      (range 0 k).

Definition solveOLS (X : matrix) (y : vector) : vector :=
  let k := columns X in
  let XtXInv := invertMatrix (XtX X) in
  map (fun i =>
         fold_left (fun acc j => (acc + at2 XtXInv i j * at1 (Xty X y) j)%float)
                   (range 0 k) 0%float)
      (range 0 k).

(** *** predictAR4 *)

Definition predictAR4 (coefficients : AR4Coefficients) (recentReturns : vector)
  : number :=
  (beta0 coefficients
   + beta1 coefficients * at1 recentReturns 0
   + beta2 coefficients * at1 recentReturns 1
   + beta3 coefficients * at1 recentReturns 2
   + beta4 coefficients * at1 recentReturns 3)%float.

Definition zero_fit : AR4Coefficients :=
  {| beta0 := 0%float; beta1 := 0%float; beta2 := 0%float; beta3 := 0%float;
     beta4 := 0%float; rSquared := 0%float |}.

(** The fields of an instance. *)
Record AR4Alpha : Type := {
  config : AR4Config;
  coefficients : option AR4Coefficients;
  returnHistory : vector;
}.

Definition constructor (config : option AR4ConfigInput) : completion AR4Alpha :=
  let arg :=
    match config with
    | Some i => Return i
    | None =>
        match AR4ConfigSchema_parse empty_input with
        | Return c => Return (as_input c)
        | Throw e => Throw e
        end
    end in
  match arg with
  | Throw e => Throw e
  | Return i =>
      match AR4ConfigSchema_parse i with
      | Throw e => Throw e
      | Return c =>
          Return {| config := c; coefficients := None; returnHistory := [] |}
      end
  end.

Definition getCoefficients : M AR4Alpha (option AR4Coefficients) :=
  this <- get ;; ret (coefficients this).

Definition reset : M AR4Alpha unit :=
  fun this =>
    ({| config := config this; coefficients := None; returnHistory := [] |},
     Return tt).

Section WithBuiltins.

(** [Math.pow], [Number.prototype.toFixed] and the conversion of a number
    inside a template literal: pure functions of the language. *)
Variable Math_pow : number -> number -> number.
Variable toFixed : number -> nat -> string.
Variable Number_toString : number -> string.

(** *** fitAR4 *)

Definition fitAR4 (returns : vector) : AR4Coefficients :=
  if (length returns <? 10)%nat then zero_fit
  else
    let rows := range 4 (length returns) in
    let X :=
      map (fun i => [1%float; at1 returns (i - 1); at1 returns (i - 2);
                     at1 returns (i - 3); at1 returns (i - 4)]) rows in
    let y := map (fun i => at1 returns i) rows in
    if (length X =? 0)%nat then zero_fit
    else
      let beta := solveOLS X y in
      let yMean :=
        (fold_left (fun acc val => acc + val) y 0 / of_nat (length y))%float in
      let ssTot :=
        fold_left (fun acc val => (acc + Math_pow (val - yMean) 2)%float)
                  y 0%float in
      let ssRes :=
        fold_left
          (fun acc i =>
             let yPred :=
               (at1 beta 0
                + at1 beta 1 * at2 X i 1
                + at1 beta 2 * at2 X i 2
                + at1 beta 3 * at2 X i 3
                + at1 beta 4 * at2 X i 4)%float in
             (acc + Math_pow (at1 y i - yPred) 2)%float)
          (range 0 (length y)) 0%float in
      let r2 :=
        if strict_eq ssTot 0%float then 0%float else (1 - ssRes / ssTot)%float in
      {| beta0 := at1 beta 0; beta1 := at1 beta 1; beta2 := at1 beta 2;
         beta3 := at1 beta 3; beta4 := at1 beta 4;
         rSquared := Math_max 0%float (Math_min 1%float r2) |}.

(** *** AR4Alpha.generateSignal *)

Definition generateSignal (features : Features) : M AR4Alpha (option AlphaSignal) :=
  match f_vals features !! "return_1" with
  | None => ret None
  | Some currentReturn =>
      if isNaN currentReturn then ret None
      else
        this <- get ;;
        let history := returnHistory this ++ [currentReturn] in
        let history :=
          if gt (of_nat (length history)) (fitWindow (config this))
          then tail history else history in
        let coefs :=
          if (length history mod 20 =? 0)%nat
             || match coefficients this with None => true | Some _ => false end
          then Some (fitAR4 history)
          else coefficients this in
        put {| config := config this; coefficients := coefs;
               returnHistory := history |} ;;;
        match coefs with
        | None => ret None
        | Some c =>
            if (length history <? 4)%nat then ret None
            else if lt (rSquared c) (minRSquared (config this)) then ret None
            else
              let len := length history in
              let recentReturns :=
                [at1 history (len - 1); at1 history (len - 2);
                 at1 history (len - 3); at1 history (len - 4)] in
              let predictedReturn := predictAR4 c recentReturns in
              let score :=
                Math_max (-1)%float (Math_min 1%float (predictedReturn * 100)%float) in
              let conf := rSquared c in
              let signal := {|
                sig_id := "ar4-" +:+ Number_toString (f_t features);
                sig_t := f_t features;
                sig_symbol := f_symbol features;
                sig_exch := f_exch features;
                sig_tf := f_tf features;
                sig_score := score;
                sig_conf := conf;
                sig_horizon_sec := horizonSec (config this);
                sig_explain :=
                  Some ("AR(4) predicted return: " +:+ toFixed predictedReturn 6
                        +:+ ", R²: " +:+ toFixed (rSquared c) 3);
              |} in
              a <- lift (AlphaSignalSchema_parse signal) ;;
              ret (Some a)
        end
  end.

(** *** Vocabulary of the specification *)

(** The instance after it has taken in one more return: the return is
    appended, the oldest one dropped beyond [fitWindow], and the model refit
    when the history length is a multiple of 20 or no fit exists. *)
Definition accumulate (this : AR4Alpha) (currentReturn : number) : AR4Alpha :=
  let pushed := returnHistory this ++ [currentReturn] in
  let history :=
    if gt (of_nat (length pushed)) (fitWindow (config this))
    then tail pushed else pushed in
  {| config := config this;
     coefficients :=
       if (length history mod 20 =? 0)%nat
          || match coefficients this with None => true | Some _ => false end
       then Some (fitAR4 history)
       else coefficients this;
     returnHistory := history |}.

(** The instances a program can hold: constructed with configuration [c],
    then used through [generateSignal] and [reset]. *)
Inductive reachable (c : AR4Config) : AR4Alpha -> Prop :=
  | reach_new :
      reachable c {| config := c; coefficients := None; returnHistory := [] |}
  | reach_generateSignal (a : AR4Alpha) (features : Features) :
      reachable c a -> reachable c (fst (generateSignal features a))
  | reach_reset (a : AR4Alpha) :
      reachable c a -> reachable c (fst (reset a)).

End WithBuiltins.

End AR4.

(* ===================================================================== *)
(** ** Instances in one program: the heap of objects *)
(* ===================================================================== *)

(** Every [new] allocates an object of its own; a method call reads and
    writes the fields of the object it is called on. Objects live in one
    heap, addressed by their identity, so that what one instance does to
    another is visible in the model. *)
Module Instances.

Section Heap.

Context {Obj In Out : Type}.

(** The method under study, as a body over the fields of [this]. *)
Variable method : In -> M Obj Out.

Abbreviation heap := (gmap nat Obj).








End Heap.

End Instances.

(* ===================================================================== *)
(** ** The spec's reading of the matrix inversion *)
(* ===================================================================== *)

(** Gauss-Jordan elimination with partial pivoting as the specification
    words it: the elimination is run to its end, the pivots it selects are
    recorded, and the singular fallback looks at the recorded pivots. To be
    compared with [AR4.invertMatrix], which stops at the first small pivot. *)
Module GaussJordanSpec.
Import JS AR4.









(** An [n] by [n] matrix. *)
Definition square (m : matrix) : Prop :=
  Forall (fun row => length row = length m) m.

End GaussJordanSpec.

(* ===================================================================== *)
(** ** packages/features/src/rolling.ts: the indicators *)
(* ===================================================================== *)

Module Indicators.
Import JS.

Abbreviation vector := (list number).

(** A window size: the source assumes window sizes are integers, and its
    callers pass validated integers or literals. [of_Z] is the number the
    integer stands for. *)
Definition of_Z (z : Z) : number :=
  if z <? 0 then (- PrimFloat.of_uint63 (Uint63.of_Z (- z)))%float
  else PrimFloat.of_uint63 (Uint63.of_Z z).

(** [values.slice(start)] for an integer [start]: a negative start counts
    from the end. *)
Definition slice_from (start : Z) (values : vector) : vector :=
  let len := Z.of_nat (length values) in
  let from := if start <? 0 then Z.max (len + start) 0 else Z.min start len in
  drop (Z.to_nat from) values.

(** [values.slice(0, stop)] for an integer [stop]. *)
Definition slice_to (stop : Z) (values : vector) : vector :=
  let len := Z.of_nat (length values) in
  let to := if stop <? 0 then Z.max (len + stop) 0 else Z.min stop len in
  take (Z.to_nat to) values.

(** [values.reduce((acc, val) => acc + val, 0)]. *)
Definition sum (values : vector) : number :=
  fold_left (fun acc val => (acc + val)%float) values 0%float.

(** The integers [from, from + 1, ..., to - 1] of a counting loop. *)
Definition zrange (from to : Z) : list Z :=
  map (fun k => from + Z.of_nat k) (seq 0 (Z.to_nat (to - from))).

Definition sma (values : vector) (period : Z) : number :=
  if (Z.of_nat (length values) <? period) || (period <=? 0) then NaN
  else
    let window := slice_from (- period) values in
    (sum window / of_Z period)%float.

Definition ema (values : vector) (period : Z) (prevEma : option number) : number :=
  if (length values =? 0)%nat || (period <=? 0) then NaN
  else
    let multiplier := (2 / (of_Z period + 1))%float in
    let seed :=
      if Z.of_nat (length values) <? period then NaN else sma values period in
    match prevEma with
    | None => seed
    | Some prev =>
        if isNaN prev then seed
        else
          let latestValue := AR4.at1 values (length values - 1) in
          ((latestValue - prev) * multiplier + prev)%float
    end.

Definition wma (values : vector) (period : Z) : number :=
  if (Z.of_nat (length values) <? period) || (period <=? 0) then NaN
  else
    let window := slice_from (- period) values in
    let '(weightedSum, weightSum) :=
      fold_left
        (fun '(weightedSum, weightSum) i =>
           let weight := of_nat (i + 1) in
           ((weightedSum + AR4.at1 window i * weight)%float,
            (weightSum + weight)%float))
        (AR4.range 0 (length window)) (0%float, 0%float) in
    (weightedSum / weightSum)%float.

Record MACDResult : Type := {
  macd_line : number;
  signal_line : number;
  histogram : number;
}.

Section WithBuiltins.

(** [Math.pow] and [Math.sqrt], builtins of the language. *)
Variable Math_pow : number -> number -> number.
Variable Math_sqrt : number -> number.

Definition variance (values : vector) (period : Z) : number :=
  if (Z.of_nat (length values) <? period) || (period <=? 1) then NaN
  else
    let window := slice_from (- period) values in
    let mean := sma window period in
    let squaredDiffs := map (fun val => Math_pow (val - mean)%float 2%float) window in
    let sumSquaredDiffs := sum squaredDiffs in
    (sumSquaredDiffs / (of_Z period - 1))%float.

Definition stddev (values : vector) (period : Z) : number :=
  let v := variance values period in
  if isNaN v then NaN else Math_sqrt v.

End WithBuiltins.

(** The true ranges of the first [len] bars. *)
Definition trueRanges (highs lows closes : vector) (len : nat) : vector :=
  map (fun i =>
         let high := AR4.at1 highs i in
         let low := AR4.at1 lows i in
         if (i =? 0)%nat then (high - low)%float
         else
           let prevClose := AR4.at1 closes (i - 1) in
           Math_max (Math_max (high - low)%float (Math_abs (high - prevClose)%float))
                    (Math_abs (low - prevClose)%float))
      (AR4.range 0 len).

Definition atr (highs lows closes : vector) (period : Z) : number :=
  let len := Nat.min (Nat.min (length highs) (length lows)) (length closes) in
  if (Z.of_nat len <? period) || (period <=? 0) then NaN
  else sma (trueRanges highs lows closes len) period.

Definition rsi (values : vector) (period : Z) : number :=
  if (Z.of_nat (length values) <? period + 1) || (period <=? 0) then NaN
  else
    let changes :=
      map (fun i => (AR4.at1 values i - AR4.at1 values (i - 1))%float)
          (AR4.range 1 (length values)) in
    let window := slice_from (- period) changes in
    let '(gains, losses) :=
      fold_left
        (fun '(gains, losses) change =>
           if gt change 0%float then ((gains + change)%float, losses)
           else (gains, (losses + Math_abs change)%float))
        window (0%float, 0%float) in
    let avgGain := (gains / of_Z period)%float in
    let avgLoss := (losses / of_Z period)%float in
    if strict_eq avgLoss 0%float then
      if strict_eq avgGain 0%float then 50%float else 100%float
    else
      let rs := (avgGain / avgLoss)%float in
      (100 - 100 / (1 + rs))%float.

Definition nan_result : MACDResult :=
  {| macd_line := NaN; signal_line := NaN; histogram := NaN |}.

(** The MACD values of every prefix that has at least [slowPeriod]
    values. *)
Definition macdHistory (values : vector) (fastPeriod slowPeriod : Z) : vector :=
  omap (fun i =>
          let slice := slice_to (i + 1) values in
          let fEma := ema slice fastPeriod None in
          let sEma := ema slice slowPeriod None in
          if negb (isNaN fEma) && negb (isNaN sEma)
          then Some (fEma - sEma)%float else None)
       (zrange (slowPeriod - 1) (Z.of_nat (length values))).

(** [macd(values, fastPeriod, slowPeriod, signalPeriod)]; an argument left
    out takes its default 12, 26 or 9. *)
Definition macd (values : vector) (fastPeriod slowPeriod signalPeriod : option Z)
  : MACDResult :=
  let fastPeriod := default 12 fastPeriod in
  let slowPeriod := default 26 slowPeriod in
  let signalPeriod := default 9 signalPeriod in
  if Z.of_nat (length values) <? slowPeriod then nan_result
  else
    let fastEma := ema values fastPeriod None in
    let slowEma := ema values slowPeriod None in
    if isNaN fastEma || isNaN slowEma then nan_result
    else
      let macd_ := (fastEma - slowEma)%float in
      let history := macdHistory values fastPeriod slowPeriod in
      if Z.of_nat (length history) >=? signalPeriod then
        let signal := ema history signalPeriod None in
        if negb (isNaN signal)
        then {| macd_line := macd_; signal_line := signal;
                histogram := (macd_ - signal)%float |}
        else {| macd_line := macd_; signal_line := signal; histogram := NaN |}
      else {| macd_line := macd_; signal_line := NaN; histogram := NaN |}.

End Indicators.

(* ===================================================================== *)
(** ** packages/features/src/factory.ts: the feature builder *)
(* ===================================================================== *)

Module Factory.
Import JS Core Indicators.

(** *** Bars (packages/core/src/types.ts) *)

Record Bar : Type := {
  b_t : number;
  b_o : number;
  b_h : number;
  b_l : number;
  b_c : number;
  b_v : number;
  b_exch : string;
  b_symbol : string;
  b_tf : string;
}.

Definition BarSchema_ok (b : Bar) : bool :=
  z_int (b_t b) && z_positive (b_t b) &&
  z_positive (b_o b) && z_positive (b_h b) &&
  z_positive (b_l b) && z_positive (b_c b) &&
  z_nonnegative (b_v b) &&
  z_string_min1 (b_exch b) && z_string_min1 (b_symbol b) &&
  tf_regex (b_tf b).

(** [bars.map((b) => BarSchema.parse(b))]: the first bar that fails the
    schema throws. *)
Definition parseBars (bars : list Bar) : completion (list Bar) :=
  if forallb BarSchema_ok bars then Return bars else Throw (ZodError "Bar").

(** *** Configuration *)

Record VolBuckets : Type := {
  low : number;
  high : number;
}.

Record VolBucketsInput : Type := {
  in_low : option number;
  in_high : option number;
}.

Record FeatureConfigInput : Type := {
  in_window : option Z;
  in_rsiPeriod : option Z;
  in_atrPeriod : option Z;
  in_macdFast : option Z;
  in_macdSlow : option Z;
  in_macdSignal : option Z;
  in_volBuckets : option VolBucketsInput;
}.

(** The integer fields are [z.number().int().positive()]: integers, here of
    type [Z], that must be above zero. *)
Record FeatureConfig : Type := {
  window : Z;
  rsiPeriod : Z;
  atrPeriod : Z;
  macdFast : Z;
  macdSlow : Z;
  macdSignal : Z;
  volBuckets : VolBuckets;
}.

Definition FeatureConfigSchema_ok (c : FeatureConfig) : bool :=
  (0 <? window c) && (0 <? rsiPeriod c) && (0 <? atrPeriod c) &&
  (0 <? macdFast c) && (0 <? macdSlow c) && (0 <? macdSignal c) &&
  z_positive (low (volBuckets c)) && z_positive (high (volBuckets c)).

Definition FeatureConfigSchema_parse (i : FeatureConfigInput)
  : completion FeatureConfig :=
  let c := {|
    window := default 20 (in_window i);
    rsiPeriod := default 14 (in_rsiPeriod i);
    atrPeriod := default 14 (in_atrPeriod i);
    macdFast := default 12 (in_macdFast i);
    macdSlow := default 26 (in_macdSlow i);
    macdSignal := default 9 (in_macdSignal i);
    volBuckets :=
      match in_volBuckets i with
      | Some b => {| low := default 0.01%float (in_low b);
                     high := default 0.03%float (in_high b) |}
      | None => {| low := 0.01%float; high := 0.03%float |}
      end;
  |} in
  if FeatureConfigSchema_ok c then Return c else Throw (ZodError "FeatureConfig").

Definition empty_input : FeatureConfigInput :=
  {| in_window := None; in_rsiPeriod := None; in_atrPeriod := None;
     in_macdFast := None; in_macdSlow := None; in_macdSignal := None;
     in_volBuckets := None |}.

Definition as_input (c : FeatureConfig) : FeatureConfigInput :=
  {| in_window := Some (window c); in_rsiPeriod := Some (rsiPeriod c);
     in_atrPeriod := Some (atrPeriod c); in_macdFast := Some (macdFast c);
     in_macdSlow := Some (macdSlow c); in_macdSignal := Some (macdSignal c);
     in_volBuckets := Some {| in_low := Some (low (volBuckets c));
                              in_high := Some (high (volBuckets c)) |} |}.

(** *** Regime classification *)

Inductive Regime : Type :=
  | TRENDING_UP
  | TRENDING_DOWN
  | RANGING
  | VOLATILE.

(** The string value of an enum member. *)
Definition regime_value (r : Regime) : string :=
  match r with
  | TRENDING_UP => "trending_up"
  | TRENDING_DOWN => "trending_down"
  | RANGING => "ranging"
  | VOLATILE => "volatile"
  end.

Definition classifyRegime (trendStrength volatility : number) : Regime :=
  if gt volatility 2.0%float then VOLATILE
  else if gt (Math_abs trendStrength) 0.6%float then
    if gt trendStrength 0%float then TRENDING_UP else TRENDING_DOWN
  else RANGING.

Definition zScore (value mean std : number) : number :=
  if strict_eq std 0%float then NaN else ((value - mean) / std)%float.

Inductive Bucket : Type := bucket_low | bucket_medium | bucket_high.

Definition volatilityBucket (volatility : number) (thresholds : VolBuckets) : Bucket :=
  if lt volatility (low thresholds) then bucket_low
  else if gt volatility (high thresholds) then bucket_high
  else bucket_medium.

(** The keys of a feature record, in the order of the source. *)
Definition featureKeys : list string :=
  ["close"; "return_1"; "log_return_1"; "sma_20"; "ema_12"; "ema_26";
   "rsi_14"; "atr_14"; "macd"; "macd_signal"; "macd_histogram";
   "volatility_20"; "trend_strength"; "z_score_close"].

Definition computeTrendStrength (bars : list Bar) (config : FeatureConfig) : number :=
  if Z.of_nat (length bars) <? window config then NaN
  else
    let closes := map b_c bars in
    let highs := map b_h bars in
    let lows := map b_l bars in
    let fastEma := ema closes 10 None in
    let slowEma := ema closes 20 None in
    let atrVal := atr highs lows closes (atrPeriod config) in
    if isNaN fastEma || isNaN slowEma || isNaN atrVal || strict_eq atrVal 0%float
    then NaN
    else
      let trendStrength := ((fastEma - slowEma) / atrVal)%float in
      Math_max (-1)%float (Math_min 1%float trendStrength).

Section WithBuiltins.

Variable Math_log : number -> number.
Variable Math_pow : number -> number -> number.
Variable Math_sqrt : number -> number.
Variable Number_toString : number -> string.

(** [bars[bars.length - 1]!.c] and the like: a bar read by index, on lists
    that hold one. *)
Definition closeAt (bars : list Bar) (i : nat) : number :=
  default NaN (b_c <$> bars !! i).

Definition computeReturns (bars : list Bar) : number * number :=
  if (length bars <? 2)%nat then (NaN, NaN)
  else
    let current := closeAt bars (length bars - 1) in
    let previous := closeAt bars (length bars - 2) in
    (Rolling.simpleReturn current previous, Math_log (current / previous)%float).

(** The fourteen values of a feature record. *)
Definition featureValues (bars : list Bar) (config : FeatureConfig) (latestBar : Bar)
  : gmap string number :=
  let closes := map b_c bars in
  let highs := map b_h bars in
  let lows := map b_l bars in
  let returns := computeReturns bars in
  let sma20 := sma closes 20 in
  let ema12 := ema closes (macdFast config) None in
  let ema26 := ema closes (macdSlow config) None in
  let rsi14 := rsi closes (rsiPeriod config) in
  let atr14 := atr highs lows closes (atrPeriod config) in
  let macdResult :=
    macd closes (Some (macdFast config)) (Some (macdSlow config))
         (Some (macdSignal config)) in
  let volatility := stddev Math_pow Math_sqrt closes (window config) in
  let trendStrength := computeTrendStrength bars config in
  let meanClose := sma20 in
  let stdClose := volatility in
  let zScoreClose := zScore (b_c latestBar) meanClose stdClose in
  <["close" := b_c latestBar]> (
  <["return_1" := fst returns]> (
  <["log_return_1" := snd returns]> (
  <["sma_20" := sma20]> (
  <["ema_12" := ema12]> (
  <["ema_26" := ema26]> (
  <["rsi_14" := rsi14]> (
  <["atr_14" := atr14]> (
  <["macd" := macd_line macdResult]> (
  <["macd_signal" := signal_line macdResult]> (
  <["macd_histogram" := histogram macdResult]> (
  <["volatility_20" := volatility]> (
  <["trend_strength" := trendStrength]> (
  <["z_score_close" := zScoreClose]> ∅))))))))))))).

(** The regime label of a feature record. *)
Definition featureRegime (bars : list Bar) (config : FeatureConfig) : Regime :=
  let closes := map b_c bars in
  let sma20 := sma closes 20 in
  let volatility := stddev Math_pow Math_sqrt closes (window config) in
  let trendStrength := computeTrendStrength bars config in
  classifyRegime trendStrength (volatility / sma20)%float.

(** The record [buildFeaturesSync] hands to [FeaturesSchema.parse]. *)
Definition candidate (bars : list Bar) (config : FeatureConfig) (latestBar : Bar)
  : Features :=
  {| f_t := b_t latestBar;
     f_exch := b_exch latestBar;
     f_symbol := b_symbol latestBar;
     f_tf := b_tf latestBar;
     f_vals := featureValues bars config latestBar;
     f_regime := Some (regime_value (featureRegime bars config)) |}.

Definition insufficient_data (need got : number) : string :=
  "Insufficient data: need " +:+ Number_toString need +:+ " bars, got "
  +:+ Number_toString got.

(** [buildFeaturesSync(bars, config)]; [None] is the call without
    configuration, which takes [FeatureConfigSchema.parse({})]. *)
Definition buildFeaturesSync (bars : list Bar) (config : option FeatureConfigInput)
  : completion Features :=
  let arg :=
    match config with
    | Some i => Return i
    | None =>
        match FeatureConfigSchema_parse empty_input with
        | Return c => Return (as_input c)
        | Throw e => Throw e
        end
    end in
  match arg with
  | Throw e => Throw e
  | Return i =>
      match parseBars bars with
      | Throw e => Throw e
      | Return validatedBars =>
          match FeatureConfigSchema_parse i with
          | Throw e => Throw e
          | Return validatedConfig =>
              if Z.of_nat (length validatedBars) <? window validatedConfig then
                Throw (JsError (insufficient_data (of_Z (window validatedConfig))
                                  (of_nat (length validatedBars))))
              else
                match validatedBars !! (length validatedBars - 1)%nat with
                | None => Throw (JsError "Cannot read properties of undefined")
                | Some latestBar =>
                    FeaturesSchema_parse
                      {| f_t := b_t latestBar;
                         f_exch := b_exch latestBar;
                         f_symbol := b_symbol latestBar;
                         f_tf := b_tf latestBar;
                         f_vals := featureValues validatedBars validatedConfig latestBar;
                         f_regime :=
                           Some (regime_value
                                   (featureRegime validatedBars validatedConfig)) |}
                end
          end
      end
  end.

End WithBuiltins.

End Factory.

(* ===================================================================== *)
(** ** packages/plugins/src/risk/rules.ts *)
(* ===================================================================== *)

Module Risk.
Import JS.

Record RiskVerdict : Type := {
  allow : bool;
  reason : option string;
}.

Record RiskContext : Type := {
  symbol : string;
  exch : string;
  pnl : number;
  exposure : number;
  maxDailyLoss : number;
  maxExposure : number;
  leverage : number;
  maxLeverage : number;
  feedStale : bool;
}.

Definition allowed : RiskVerdict := {| allow := true; reason := None |}.
Definition blocked (why : string) : RiskVerdict :=
  {| allow := false; reason := Some why |}.

Definition maxDailyLossRule (ctx : RiskContext) : RiskVerdict :=
  if lt (pnl ctx) (- maxDailyLoss ctx)%float then blocked "max daily loss"
  else allowed.

Definition maxExposureRule (ctx : RiskContext) : RiskVerdict :=
  if gt (exposure ctx) (maxExposure ctx) then blocked "max exposure"
  else allowed.

Definition leverageCapRule (ctx : RiskContext) : RiskVerdict :=
  if gt (leverage ctx) (maxLeverage ctx) then blocked "leverage cap"
  else allowed.

Definition staleFeedRule (ctx : RiskContext) : RiskVerdict :=
  if feedStale ctx then blocked "stale feed" else allowed.

End Risk.

(* ===================================================================== *)
(** ** Scenarios: the concrete inputs of the test suites *)
(* ===================================================================== *)

Module Scenarios.
Import JS Core.

(** [createMockSignal(score)] of the policy tests. *)
Definition mockSignal (score : number) : AlphaSignal :=
  {| sig_id := "test-signal-1700000000000";
     sig_t := 1700000000000%float;
     sig_symbol := "BTCUSDT";
     sig_exch := "BINANCE";
     sig_tf := "1m";
     sig_score := score;
     sig_conf := 0.8%float;
     sig_horizon_sec := 300%float;
     sig_explain := None |}.

(** A feature record of the tests, with the given values. *)
Definition mockFeatures (vals : gmap string number) : Features :=
  {| f_t := 1700000000000%float;
     f_exch := "BINANCE";
     f_symbol := "BTCUSDT";
     f_tf := "1m";
     f_vals := vals;
     f_regime := Some "ranging" |}.

(** [createMockFeatures(close, atr)] of the policy tests. *)
Definition priceFeatures (close atr : number) : Features :=
  mockFeatures (<["close" := close]> (<["atr_14" := atr]> ∅)).

(** The parsed default configuration of the policy. *)
Definition defaultPolicyConfig : Policy.ThresholdAtrConfig :=
  {| Policy.enterThreshold := 0.5%float;
     Policy.exitThreshold := 0.3%float;
     Policy.fixedNotional := 1000%float;
     Policy.useAtrSizing := false;
     Policy.atrSizingMultiplier := 1%float;
     Policy.atrTpMultiplier := 2%float;
     Policy.atrSlMultiplier := 1%float;
     Policy.maxSize := 10%float |}.

(** The policy after a long opened from flat at score 0.8 (the test suite
    opens it at price 50000 and ATR 500, a size of 1000 / 50000 = 0.02). *)
Definition longPolicy (c : Policy.ThresholdAtrConfig) (close atr : number)
  : Policy.ThresholdAtrPolicy :=
  fst (Policy.generateAction (mockSignal 0.8%float) (priceFeatures close atr)
         {| Policy.config := c; Policy.state := Policy.flat |}).

(** The default configuration with ATR-scaled sizing switched on. *)
Definition atrSizingInput : Policy.ThresholdAtrConfigInput :=
  {| Policy.in_enterThreshold := None;
     Policy.in_exitThreshold := None;
     Policy.in_fixedNotional := None;
     Policy.in_useAtrSizing := Some true;
     Policy.in_atrSizingMultiplier := None;
     Policy.in_atrTpMultiplier := None;
     Policy.in_atrSlMultiplier := None;
     Policy.in_maxSize := None |}.

Definition atrSizingConfig : Policy.ThresholdAtrConfig :=
  {| Policy.enterThreshold := 0.5%float;
     Policy.exitThreshold := 0.3%float;
     Policy.fixedNotional := 1000%float;
     Policy.useAtrSizing := true;
     Policy.atrSizingMultiplier := 1%float;
     Policy.atrTpMultiplier := 2%float;
     Policy.atrSlMultiplier := 1%float;
     Policy.maxSize := 10%float |}.

(** A configuration input that only sets the two thresholds. *)
Definition thresholdsInput (enter exit : number) : Policy.ThresholdAtrConfigInput :=
  {| Policy.in_enterThreshold := Some enter;
     Policy.in_exitThreshold := Some exit;
     Policy.in_fixedNotional := None;
     Policy.in_useAtrSizing := None;
     Policy.in_atrSizingMultiplier := None;
     Policy.in_atrTpMultiplier := None;
     Policy.in_atrSlMultiplier := None;
     Policy.in_maxSize := None |}.

(** [createMockFeatures(macd, signal, histogram)] of the MACD tests. *)
Definition macdFeatures (macd signal histogram : number) : Features :=
  mockFeatures (<["macd" := macd]> (<["macd_signal" := signal]>
                  (<["macd_histogram" := histogram]> ∅))).

(** A feature record that carries the two lines and no histogram. *)
Definition macdFeaturesNoHistogram (macd signal : number) : Features :=
  mockFeatures (<["macd" := macd]> (<["macd_signal" := signal]> ∅)).

Definition defaultMACDConfig : MACD.MACDConfig :=
  {| MACD.minHistogram := 0.0001%float;
     MACD.horizonSec := 300%float;
     MACD.useCrossover := true |}.

(** Stand-ins for the two string builtins, for evaluation. *)
Definition someToFixed (x : number) (digits : nat) : string := "0".
Definition someToString (x : number) : string := "1700000000000".
Definition somePow (x y : number) : number := (x * x)%float.

(** [createMockFeatures(return_1)] of the AR(4) tests. *)
Definition returnFeatures (r : number) : Features :=
  mockFeatures (<["return_1" := r]> ∅).

Definition defaultAR4Config : AR4.AR4Config :=
  {| AR4.fitWindow := 100%float;
     AR4.horizonSec := 300%float;
     AR4.minRSquared := 0.1%float |}.

Definition diagonalMatrix : AR4.matrix := [[2; 0]; [0; 4]]%float.


(** Stand-ins for [Math.log] and [Math.sqrt], for evaluation: the first
    order of the logarithm at 1, and the square root of the floats. *)
Definition someLog (x : number) : number := (x - 1)%float.
Definition someSqrt (x : number) : number := PrimFloat.sqrt x.

(** Minute bars of a steady rise: bar [i] closes at [100 + i], one above its
    low and one below its high. *)
Definition risingBar (i : nat) : Factory.Bar :=
  {| Factory.b_t := (1700000000000 + 60000 * of_nat i)%float;
     Factory.b_o := (100 + of_nat i)%float;
     Factory.b_h := (101 + of_nat i)%float;
     Factory.b_l := (99 + of_nat i)%float;
     Factory.b_c := (100 + of_nat i)%float;
     Factory.b_v := 10%float;
     Factory.b_exch := "BINANCE";
     Factory.b_symbol := "BTCUSDT";
     Factory.b_tf := "1m" |}.

Definition risingBars (n : nat) : list Factory.Bar := map risingBar (seq 0 n).

(** The parsed default configuration of the feature builder. *)
Definition defaultFeatureConfig : Factory.FeatureConfig :=
  {| Factory.window := 20;
     Factory.rsiPeriod := 14;
     Factory.atrPeriod := 14;
     Factory.macdFast := 12;
     Factory.macdSlow := 26;
     Factory.macdSignal := 9;
     Factory.volBuckets := {| Factory.low := 0.01%float; Factory.high := 0.03%float |} |}.

(** The record built from forty rising bars. *)
Definition risingFeatures : Features :=
  Factory.candidate someLog somePow someSqrt (risingBars 40)
    defaultFeatureConfig (risingBar 39).

(** An AR(4) plugin without a quality threshold, four returns in. *)
Definition primedAR4 : AR4.AR4Alpha :=
  {| AR4.config := {| AR4.fitWindow := 100%float;
                      AR4.horizonSec := 300%float;
                      AR4.minRSquared := 0%float |};
     AR4.coefficients := Some AR4.zero_fit;
     AR4.returnHistory := [0.01; 0.02; 0.01; 0.02]%float |}.

End Scenarios.

(* ===================================================================== *)
(** ** Facts on the order of binary64 numbers *)
(* ===================================================================== *)

Module FloatFacts.
Import JS.

Ltac cmp_cases :=
  repeat match goal with
  | |- context [Pos.compare_cont Eq ?a ?b] =>
      change (Pos.compare_cont Eq a b) with (Pos.compare a b)
  | H : context [Pos.compare_cont Eq ?a ?b] |- _ =>
      change (Pos.compare_cont Eq a b) with (Pos.compare a b) in H
  | |- context [Z.compare ?a ?b] => destruct (Z.compare_spec a b); subst
  | H : context [Z.compare ?a ?b] |- _ => destruct (Z.compare_spec a b); subst
  | |- context [Pos.compare ?a ?b] => destruct (Pos.compare_spec a b); subst
  | H : context [Pos.compare ?a ?b] |- _ => destruct (Pos.compare_spec a b); subst
  end.

Ltac sf_cases x := destruct x as [[|]|[|]| |[|] ? ?].

Lemma SFleb_ltb_trans x y z :
  SFleb x y = true -> SFltb y z = true -> SFltb x z = true.
Proof.
  unfold SFleb, SFltb.
  sf_cases x; sf_cases y; sf_cases z; simpl;
    try discriminate; try reflexivity; try (intros; assumption).
  all: cmp_cases; simpl; try discriminate; try reflexivity; try lia.
Qed.

Lemma SFleb_not_ltb x y : SFleb x y = true -> SFltb y x = false.
Proof.
  unfold SFleb, SFltb.
  sf_cases x; sf_cases y; simpl; try discriminate; try reflexivity.
  all: cmp_cases; simpl; try discriminate; try reflexivity; try lia.
Qed.

Lemma SFltb_leb x y : SFltb x y = true -> SFleb x y = true.
Proof.
  unfold SFleb, SFltb. destruct (SFcompare x y) as [[| |]|]; congruence.
Qed.

Lemma SFeqb_leb x y : SFeqb x y = true -> SFleb x y = true.
Proof.
  unfold SFleb, SFeqb. destruct (SFcompare x y) as [[| |]|]; congruence.
Qed.

(** [a <= b] and [b < c] give [a < c]. *)
Lemma le_lt_trans a b c : le a b = true -> lt b c = true -> lt a c = true.
Proof.
  unfold le, lt. rewrite FloatAxioms.leb_spec, !FloatAxioms.ltb_spec.
  apply SFleb_ltb_trans.
Qed.

(** [a <= b] excludes [b < a]. *)
Lemma le_not_gt a b : le a b = true -> lt b a = false.
Proof.
  unfold le, lt. rewrite FloatAxioms.leb_spec, FloatAxioms.ltb_spec.
  apply SFleb_not_ltb.
Qed.

(** [a < b] excludes [b < a]. *)
Lemma lt_asym a b : lt a b = true -> lt b a = false.
Proof.
  intros H. apply le_not_gt. unfold le, lt in *.
  rewrite FloatAxioms.leb_spec. rewrite FloatAxioms.ltb_spec in H.
  now apply SFltb_leb.
Qed.

Lemma SF_not_ltb_leb x y :
  SFeqb x x = true -> SFeqb y y = true -> SFltb x y = false -> SFleb y x = true.
Proof.
  unfold SFeqb, SFleb, SFltb.
  sf_cases x; sf_cases y; simpl; try discriminate; try reflexivity.
  all: cmp_cases; simpl; try discriminate; try reflexivity; try lia.
Qed.

(** Two numbers that are not NaN are comparable: not [a < b] is [a >= b]. *)
Lemma not_lt_ge a b :
  isNaN a = false -> isNaN b = false -> lt a b = false -> ge a b = true.
Proof.
  unfold isNaN, PrimFloat.is_nan, lt, ge. intros Ha Hb.
  apply negb_false_iff in Ha. apply negb_false_iff in Hb.
  rewrite FloatAxioms.eqb_spec in Ha, Hb.
  rewrite FloatAxioms.ltb_spec, FloatAxioms.leb_spec.
  now apply SF_not_ltb_leb.
Qed.

(** A number equal to zero is not above zero. *)
Lemma eq_zero_le a : strict_eq a 0%float = true -> le a 0%float = true.
Proof.
  unfold strict_eq, le. rewrite FloatAxioms.eqb_spec, FloatAxioms.leb_spec.
  apply SFeqb_leb.
Qed.

End FloatFacts.

(* ===================================================================== *)
(** ** Facts on the zod contracts *)
(* ===================================================================== *)

Module CoreFacts.
Import JS Core FloatFacts.

Ltac split_andb :=
  repeat match goal with
  | H : _ && _ = true |- _ => apply andb_prop in H; destruct H
  end.

(** A schema-valid feature record holds no NaN. *)
Lemma valid_features_not_nan (f : Features) (k : string) (v : number) :
  FeaturesSchema_ok f = true -> f_vals f !! k = Some v -> isNaN v = false.
Proof.
  unfold FeaturesSchema_ok. intros H Hk. split_andb.
  match goal with H : forallb _ _ = true |- _ => rename H into Hall end.
  rewrite forallb_forall in Hall.
  apply elem_of_map_to_list in Hk. apply list_elem_of_In in Hk.
  specialize (Hall _ Hk). simpl in Hall. unfold z_number in Hall.
  now apply negb_true_iff in Hall.
Qed.

(** An action that copies [t], [symbol] and [exch] from a valid signal has
    a valid header. *)
Lemma signal_header_valid (s : AlphaSignal) :
  AlphaSignalSchema_ok s = true ->
  z_int (sig_t s) && z_positive (sig_t s) &&
  z_string_min1 (sig_symbol s) && z_string_min1 (sig_exch s) = true.
Proof.
  unfold AlphaSignalSchema_ok. intros H. split_andb.
  repeat match goal with H : ?x = true |- context [?x] => rewrite H end.
  reflexivity.
Qed.

(** A size above zero is not [=== 0]. *)
Lemma positive_not_zero (x : number) :
  z_positive x = true -> strict_eq x 0%float = false.
Proof.
  unfold z_positive. intros H. split_andb.
  destruct (strict_eq x 0%float) eqn:E; [|reflexivity].
  apply eq_zero_le in E.
  match goal with H : negb (le x 0) = true |- _ => rewrite E in H; discriminate end.
Qed.

End CoreFacts.

(* ===================================================================== *)
(** ** Return helpers *)
(* ===================================================================== *)

Module RollingProps.
Import JS Rolling.

(** C7, as stated, fails: [simpleReturn] and [percentChange] test
    [previous === 0] only, so a negative previous value gives a ratio and
    not NaN: [simpleReturn(1, -2) = -1.5] and [percentChange(1, -2) = -150]. *)
Lemma negative_previous_is_not_nan :
  le (-2)%float 0%float = true /\
  simpleReturn 1%float (-2)%float = (-1.5)%float /\
  isNaN (simpleReturn 1%float (-2)%float) = false /\
  percentChange 1%float (-2)%float = (-150)%float /\
  isNaN (percentChange 1%float (-2)%float) = false.
Proof. repeat split; vm_compute; reflexivity. Qed.

(** C7, amended: when [previous] is zero (of either sign), [simpleReturn]
    and [percentChange] return NaN, and for any other [previous] they return
    the ratio; [logReturn] returns NaN whenever [previous <= 0] or
    [current <= 0], whatever [Math.log] computes. *)
Theorem return_helpers_nan (Math_log : number -> number) (current previous : number) :
  (strict_eq previous 0%float = true ->
     simpleReturn current previous = NaN /\ percentChange current previous = NaN)
  /\ (strict_eq previous 0%float = false ->
        simpleReturn current previous = ((current - previous) / previous)%float
        /\ percentChange current previous =
             (((current - previous) / previous) * 100)%float)
  /\ (le previous 0%float = true \/ le current 0%float = true ->
        logReturn Math_log current previous = NaN).
Proof.
  split; [|split].
  - intros Hz. unfold simpleReturn, percentChange. rewrite Hz. split; reflexivity.
  - intros Hz. unfold simpleReturn, percentChange. rewrite Hz. split; reflexivity.
  - intros H. unfold logReturn.
    destruct H as [H | H]; rewrite H.
    + now rewrite orb_true_r.
    + reflexivity.
Qed.

(** The theorem at [previous = -0] and at [current = -3]. *)
Lemma return_helpers_nan_witness :
  (simpleReturn 5%float (-0)%float = NaN /\ percentChange 5%float (-0)%float = NaN)
  /\ logReturn (fun x => x) (-3)%float 2%float = NaN.
Proof.
  destruct (return_helpers_nan (fun x => x) 5%float (-0)%float) as [Hz _].
  destruct (return_helpers_nan (fun x => x) (-3)%float 2%float) as (_ & _ & Hl).
  split.
  - apply Hz. vm_compute. reflexivity.
  - apply Hl. right. vm_compute. reflexivity.
Defined.

End RollingProps.

(* ===================================================================== *)
(** ** The threshold/ATR policy *)
(* ===================================================================== *)

Module PolicyProps.
Import JS Core Policy FloatFacts CoreFacts.

(** *** Construction *)

(** C3: for a configuration that passes [ThresholdAtrConfigSchema], the
    constructor throws if and only if [enterThreshold < exitThreshold], and
    then always the same error; it returns a flat policy holding the parsed
    configuration if and only if [enterThreshold >= exitThreshold]. *)
Theorem constructor_hysteresis (i : ThresholdAtrConfigInput) (c : ThresholdAtrConfig) :
  ThresholdAtrConfigSchema_parse i = Return c ->
  ((exists e, constructor (Some i) = Throw e)
     <-> lt (enterThreshold c) (exitThreshold c) = true)
  /\ (lt (enterThreshold c) (exitThreshold c) = true ->
        constructor (Some i) = Throw (JsError hysteresis_message))
  /\ (constructor (Some i) = Return {| config := c; state := flat |}
        <-> ge (enterThreshold c) (exitThreshold c) = true).
Proof.
  intros Hparse.
  assert (Hok : ThresholdAtrConfigSchema_ok c = true).
  { unfold ThresholdAtrConfigSchema_parse in Hparse.
    destruct (ThresholdAtrConfigSchema_ok _) eqn:E; [|discriminate].
    injection Hparse as <-. exact E. }
  unfold constructor. rewrite Hparse.
  destruct (lt (enterThreshold c) (exitThreshold c)) eqn:Hlt.
  - split; [|split].
    + split; [reflexivity | intros _; eexists; reflexivity].
    + reflexivity.
    + split; [discriminate|].
      intros Hge. apply le_not_gt in Hge. congruence.
  - split; [|split].
    + split; [intros [e He]; discriminate | discriminate].
    + discriminate.
    + split; [intros _ | reflexivity].
      unfold ThresholdAtrConfigSchema_ok, z_min, z_number in Hok. split_andb.
      apply not_lt_ge; [| | exact Hlt];
        apply negb_true_iff; assumption.
Qed.

(** The thresholds of the test suite: 0.3 / 0.5 is refused, 0.7 / 0.4 is
    accepted. *)
Lemma constructor_hysteresis_witness :
  constructor (Some (Scenarios.thresholdsInput 0.3%float 0.5%float)) =
    Throw (JsError hysteresis_message)
  /\ exists c, constructor (Some (Scenarios.thresholdsInput 0.7%float 0.4%float)) =
                 Return {| config := c; state := flat |}.
Proof.
  split.
  - eapply (constructor_hysteresis (Scenarios.thresholdsInput 0.3%float 0.5%float)).
    + vm_compute; reflexivity.
    + vm_compute; reflexivity.
  - eexists.
    eapply (constructor_hysteresis (Scenarios.thresholdsInput 0.7%float 0.4%float)).
    + vm_compute; reflexivity.
    + vm_compute; reflexivity.
Defined.

(** *** Reading the inputs *)

(** A constructed policy has [enterThreshold >= exitThreshold]. *)
Lemma constructed_hysteresis (p : ThresholdAtrPolicy) :
  constructed p -> lt (enterThreshold (config p)) (exitThreshold (config p)) = false.
Proof.
  intros (i & p0 & Hc & ->). unfold constructor in Hc.
  destruct (match i with
            | Some i0 => Return i0
            | None => match ThresholdAtrConfigSchema_parse empty_input with
                      | Return c => Return (as_input c)
                      | Throw e => Throw e
                      end
            end) as [i'|e]; [|discriminate].
  destruct (ThresholdAtrConfigSchema_parse i') as [c|e]; [|discriminate].
  destruct (lt (enterThreshold c) (exitThreshold c)) eqn:E; [discriminate|].
  injection Hc as <-. exact E.
Qed.

(** The first steps of [generateAction] on valid inputs that carry
    [atr_14] and [close]. *)
Ltac enter_generateAction Hsig Hfeat Hatr Hclose :=
  unfold generateAction, bind, lift, AlphaSignalSchema_parse, FeaturesSchema_parse;
  rewrite Hsig, Hfeat, Hatr, Hclose;
  rewrite (valid_features_not_nan _ _ _ Hfeat Hatr);
  rewrite (valid_features_not_nan _ _ _ Hfeat Hclose);
  cbn [orb get].

(** [buildCloseAction] on a position with a size above zero, at a price
    above zero. *)
Lemma buildCloseAction_returns (p : ThresholdAtrPolicy) (signal : AlphaSignal)
    (features : Features) (close : number) (cur : Side) :
  inPosition p cur ->
  AlphaSignalSchema_ok signal = true ->
  z_positive close = true ->
  buildCloseAction signal features close p =
    ({| config := config p; state := flat |},
     Return (closeAction signal close cur (size (state p)))).
Proof.
  intros [Hside Hsize] Hsig Hclose.
  unfold buildCloseAction, bind, get. rewrite Hside.
  rewrite (positive_not_zero _ Hsize).
  unfold set_state, lift, ActionSchema_parse, ActionSchema_ok. cbn.
  rewrite (signal_header_valid _ Hsig), Hsize, Hclose. cbn.
  unfold closeAction, opposite, flat. destruct cur; reflexivity.
Qed.

(** *** Exit *)


Lemma default_policy_constructed (st : PolicyState) :
  constructed {| config := Scenarios.defaultPolicyConfig; state := st |}.
Proof.
  exists None, {| config := Scenarios.defaultPolicyConfig; state := flat |}.
  split; [vm_compute|]; reflexivity.
Qed.



(** *** Reversal *)




(** *** The state invariant *)

Lemma flat_invariant : sideNullIffSizeZero flat.
Proof. split; intros _; vm_compute; reflexivity. Qed.

(** A call of [generateAction] that returns leaves the invariant in place:
    an open action that passed [ActionSchema] has a size above zero. *)
Lemma returning_call_keeps_invariant (p p' : ThresholdAtrPolicy)
    (signal : AlphaSignal) (features : Features) (r : option Action) :
  sideNullIffSizeZero (state p) ->
  generateAction signal features p = (p', Return r) ->
  sideNullIffSizeZero (state p').
Proof.
  intros Hinv H.
  cbv [generateAction bind lift AlphaSignalSchema_parse FeaturesSchema_parse
         buildOpenAction buildCloseAction set_state get ret throw
         ActionSchema_parse] in H.
  repeat (case_match; simplify_eq);
    cbn [state]; try exact Hinv; try exact flat_invariant.
  all: repeat match goal with
       | H : ActionSchema_ok _ = true |- _ =>
           unfold ActionSchema_ok in H; cbn in H; split_andb
       end.
  all: cbn [config] in *.
  all: match goal with
       | H : z_positive (openSize _ _ _) = true |- _ =>
           apply positive_not_zero in H; split; cbn [side size]; intros ?; congruence
       end.
Qed.

(** C9 at its failing input: a policy constructed with ATR-scaled sizing,
    flat, receives score 0.8 with [close] and [atr_14] at 1e200. The product
    [close * atr] overflows, the size is [1000 / Infinity = 0], the state is
    written, and only then [ActionSchema.parse] refuses the size and throws:
    the policy is left with side "buy" and size zero. *)
Lemma open_size_zero_breaks_invariant :
  let p := {| config := Scenarios.atrSizingConfig; state := flat |} in
  let signal := Scenarios.mockSignal 0.8%float in
  let features := Scenarios.priceFeatures 1e200%float 1e200%float in
  constructor (Some Scenarios.atrSizingInput) = Return p
  /\ AlphaSignalSchema_ok signal = true
  /\ FeaturesSchema_ok features = true
  /\ generateAction signal features p =
       ({| config := Scenarios.atrSizingConfig;
           state := {| side := Some buy; size := 0%float |} |},
        Throw (ZodError "Action"))
  /\ strict_eq (size (state (fst (generateAction signal features p)))) 0%float = true
  /\ side (state (fst (generateAction signal features p))) = Some buy.
Proof. repeat split; vm_compute; reflexivity. Qed.

End PolicyProps.

(* ===================================================================== *)
(** ** The MACD alpha *)
(* ===================================================================== *)

Module MACDProps.
Import JS Core MACD FloatFacts CoreFacts.

Section WithBuiltins.

Variable toFixed : number -> nat -> string.
Variable Number_toString : number -> string.



(** C8, amended: a call that returns null because [|histogram| <
    minHistogram] stores the current observation as the previous one and
    leaves the configuration as it is; a call that returns null because one
    of the three values is missing or NaN changes nothing at all. *)
Theorem null_call_state (m : MACDAlpha) (features : Features) :
  (forall macd signal histogram,
      f_vals features !! "macd" = Some macd ->
      f_vals features !! "macd_signal" = Some signal ->
      f_vals features !! "macd_histogram" = Some histogram ->
      isNaN macd = false -> isNaN signal = false -> isNaN histogram = false ->
      lt (Math_abs histogram) (minHistogram (config m)) = true ->
      generateSignal toFixed Number_toString features m =
        ({| config := config m; state := observed macd signal histogram |},
         Return None))
  /\ (missingOrNaN features ->
        generateSignal toFixed Number_toString features m = (m, Return None)).
Proof.
  split.
  - intros macd signal histogram Hm Hs Hh Nm Ns Nh Hsmall.
    unfold generateSignal. rewrite Hm, Hs, Hh, Nm, Ns, Nh. cbn [orb].
    unfold bind at 1, get. rewrite Hsmall. reflexivity.
  - intros (k & Hk & Hbad). unfold generateSignal.
    destruct (f_vals features !! "macd") as [macd|] eqn:Hm; [|reflexivity].
    destruct (f_vals features !! "macd_signal") as [signal|] eqn:Hs; [|reflexivity].
    destruct (f_vals features !! "macd_histogram") as [histogram|] eqn:Hh; [|reflexivity].
    replace (isNaN macd || isNaN signal || isNaN histogram) with true; [reflexivity|].
    destruct Hk as [-> | [-> | ->]];
      (destruct Hbad as [Hnone | (v & Hv & Hnan)]; [congruence|]);
      simplify_eq; rewrite Hnan; rewrite ?orb_true_r; reflexivity.
Qed.

End WithBuiltins.


(** C8, as stated, fails: when a value is missing the call returns null
    before any state update. An instance that last observed MACD 0.01 and
    receives a record with MACD 0.02, signal 0.005 and no histogram returns
    null and still holds 0.01 as its previous MACD. *)
Lemma missing_value_leaves_state :
  let m := {| config := Scenarios.defaultMACDConfig;
              state := observed 0.01%float 0%float 0.01%float |} in
  let features := Scenarios.macdFeaturesNoHistogram 0.02%float 0.005%float in
  f_vals features !! "macd" = Some 0.02%float
  /\ f_vals features !! "macd_histogram" = None
  /\ generateSignal Scenarios.someToFixed Scenarios.someToString features m =
       (m, Return None)
  /\ prevMacd (state (fst (generateSignal Scenarios.someToFixed
                             Scenarios.someToString features m))) = Some 0.01%float
  /\ strict_eq 0.01%float 0.02%float = false.
Proof. repeat split; vm_compute; reflexivity. Qed.

(** A histogram of 0.00001 under the default [minHistogram] of 0.0001, and
    a record without histogram. *)
Lemma null_call_state_witness :
  generateSignal Scenarios.someToFixed Scenarios.someToString
    (Scenarios.macdFeatures 0.00002%float 0.00001%float 0.00001%float)
    {| config := Scenarios.defaultMACDConfig; state := initial |} =
  ({| config := Scenarios.defaultMACDConfig;
      state := observed 0.00002%float 0.00001%float 0.00001%float |},
   Return None)
  /\ generateSignal Scenarios.someToFixed Scenarios.someToString
       (Scenarios.macdFeaturesNoHistogram 0.02%float 0.005%float)
       {| config := Scenarios.defaultMACDConfig;
          state := observed 0.01%float 0%float 0.01%float |} =
     ({| config := Scenarios.defaultMACDConfig;
         state := observed 0.01%float 0%float 0.01%float |}, Return None).
Proof.
  split.
  - apply (null_call_state Scenarios.someToFixed Scenarios.someToString
             {| config := Scenarios.defaultMACDConfig; state := initial |}
             (Scenarios.macdFeatures 0.00002%float 0.00001%float 0.00001%float));
      vm_compute; reflexivity.
  - apply (null_call_state Scenarios.someToFixed Scenarios.someToString
             {| config := Scenarios.defaultMACDConfig;
                state := observed 0.01%float 0%float 0.01%float |}
             (Scenarios.macdFeaturesNoHistogram 0.02%float 0.005%float)).
    exists "macd_histogram". split; [right; right; reflexivity|].
    left. vm_compute; reflexivity.
Defined.

End MACDProps.

(* ===================================================================== *)
(** ** The AR(4) alpha *)
(* ===================================================================== *)

Module AR4Props.
Import JS Core AR4 GaussJordanSpec.

(** *** Matrix inversion *)



(** The matrix [solveOLS] inverts is square: [k] by [k] for a design matrix
    of [k] columns, 5 by 5 in the AR(4) fit. *)
Lemma XtX_square (X : matrix) : square (XtX X) /\ length (XtX X) = columns X.
Proof.
  unfold square, XtX, range. rewrite !length_map, !length_seq, Nat.sub_0_r.
  split; [|reflexivity].
  apply Forall_forall. intros row Hrow.
  apply list_elem_of_In, in_map_iff in Hrow. destruct Hrow as (i & <- & _).
  now rewrite length_map, length_seq.
Qed.



(** *** Fitting on a short history *)

Section WithBuiltins.

Variable Math_pow : number -> number -> number.
Variable toFixed : number -> nat -> string.
Variable Number_toString : number -> string.

Lemma fitAR4_short (returns : vector) :
  (length returns < 10)%nat -> fitAR4 Math_pow returns = zero_fit.
Proof.
  intros H. unfold fitAR4.
  destruct (Nat.ltb_spec (length returns) 10); [reflexivity | lia].
Qed.

(** A call that reads a return takes it in, whatever it then returns. *)
Lemma generateSignal_accumulates (a : AR4Alpha) (features : Features) (r : number) :
  f_vals features !! "return_1" = Some r ->
  isNaN r = false ->
  fst (generateSignal Math_pow toFixed Number_toString features a) =
    accumulate Math_pow a r.
Proof.
  intros Hr Hnan. unfold generateSignal. rewrite Hr, Hnan.
  cbv [bind get put]. unfold accumulate. cbv zeta.
  destruct (if (length _ mod 20 =? 0)%nat || _ then Some _ else coefficients a)
    as [c|]; [|reflexivity].
  destruct (length _ <? 4)%nat; [reflexivity|].
  destruct (lt (rSquared c) _); [reflexivity|].
  unfold lift, AlphaSignalSchema_parse, ret.
  destruct (AlphaSignalSchema_ok _); reflexivity.
Qed.

(** After taking a return in, a fit below [minRSquared] or a history of
    fewer than 4 returns makes the call return null. *)
Lemma generateSignal_null (a : AR4Alpha) (features : Features) (r : number)
    (c : AR4Coefficients) :
  f_vals features !! "return_1" = Some r ->
  isNaN r = false ->
  coefficients (accumulate Math_pow a r) = Some c ->
  lt (rSquared c) (minRSquared (config a)) = true ->
  snd (generateSignal Math_pow toFixed Number_toString features a) = Return None.
Proof.
  intros Hr Hnan. unfold generateSignal. rewrite Hr, Hnan.
  cbv [bind get put]. unfold accumulate. cbv zeta. cbn [coefficients].
  intros -> Hlow.
  destruct (length _ <? 4)%nat; [reflexivity|].
  cbn [config]. rewrite Hlow. reflexivity.
Qed.

(** Taking a return in never shortens the history, and while fewer than 10
    returns are held the stored fit is the zero fit. *)
Lemma accumulate_short_history (a : AR4Alpha) (r : number) :
  ((length (returnHistory a) < 10)%nat ->
     coefficients a = None \/ coefficients a = Some zero_fit) ->
  (length (returnHistory (accumulate Math_pow a r)) < 10)%nat ->
  coefficients (accumulate Math_pow a r) = Some zero_fit.
Proof.
  unfold accumulate. cbv zeta. cbn [returnHistory coefficients].
  set (pushed := returnHistory a ++ [r]).
  set (history := if gt (of_nat (length pushed)) (fitWindow (config a))
                  then tail pushed else pushed).
  assert (Hlen : (length (returnHistory a) <= length history)%nat).
  { subst history pushed. destruct (gt _ _).
    - rewrite length_tl, length_app. cbn. lia.
    - rewrite length_app. cbn. lia. }
  intros Hinv Hshort.
  destruct ((length history mod 20 =? 0)%nat
            || match coefficients a with None => true | Some _ => false end) eqn:Hrefit.
  - now rewrite fitAR4_short.
  - destruct (Hinv ltac:(lia)) as [Hnone | Hzero]; [|exact Hzero].
    rewrite Hnone in Hrefit. now rewrite orb_true_r in Hrefit.
Qed.

(** On a reachable instance the configuration is the constructor's, and a
    history of fewer than 10 returns goes with no fit or the zero fit. *)
Lemma reachable_short_history (c : AR4Config) (a : AR4Alpha) :
  reachable Math_pow toFixed Number_toString c a ->
  config a = c
  /\ ((length (returnHistory a) < 10)%nat ->
      coefficients a = None \/ coefficients a = Some zero_fit).
Proof.
  induction 1 as [|a features Hr [IHc IHinv]|a Hr [IHc IHinv]].
  - cbn. auto.
  - unfold generateSignal.
    destruct (f_vals features !! "return_1") as [r|] eqn:Hret; [|cbn; auto].
    destruct (isNaN r) eqn:Hnan; [cbn; auto|].
    fold (generateSignal Math_pow toFixed Number_toString features a) in *.
    pose proof (generateSignal_accumulates a features r Hret Hnan) as Hacc.
    unfold generateSignal in Hacc. rewrite Hret, Hnan in Hacc. rewrite Hacc.
    split; [exact IHc|].
    intros Hshort. right. now apply accumulate_short_history.
  - cbn. auto.
Qed.

(** C10: [fitAR4] on fewer than 10 returns gives the all-zero coefficients
    with [rSquared = 0]; hence an instance configured with [minRSquared > 0]
    returns null on every call after which it holds fewer than 10 returns. *)
Theorem short_history_emits_null (c : AR4Config) (a : AR4Alpha)
    (features : Features) (returns : vector) :
  lt 0%float (minRSquared c) = true ->
  reachable Math_pow toFixed Number_toString c a ->
  ((length returns < 10)%nat ->
     fitAR4 Math_pow returns = zero_fit
     /\ rSquared (fitAR4 Math_pow returns) = 0%float)
  /\ ((length (returnHistory
                 (fst (generateSignal Math_pow toFixed Number_toString features a))) < 10)%nat ->
      snd (generateSignal Math_pow toFixed Number_toString features a) = Return None).
Proof.
  intros Hmin Hreach. split.
  - intros H. rewrite (fitAR4_short _ H). split; reflexivity.
  - destruct (reachable_short_history c a Hreach) as [Hc Hinv].
    destruct (f_vals features !! "return_1") as [r|] eqn:Hret;
      [|unfold generateSignal; rewrite Hret; reflexivity].
    destruct (isNaN r) eqn:Hnan;
      [unfold generateSignal; rewrite Hret, Hnan; reflexivity|].
    rewrite (generateSignal_accumulates a features r Hret Hnan).
    intros Hshort.
    apply (generateSignal_null a features r zero_fit Hret Hnan).
    + now apply accumulate_short_history.
    + rewrite Hc. exact Hmin.
Qed.

End WithBuiltins.

(** The first call on a fresh instance with the default [minRSquared]. *)
Lemma short_history_emits_null_witness :
  snd (generateSignal Scenarios.somePow Scenarios.someToFixed Scenarios.someToString
         (Scenarios.returnFeatures 0.01%float)
         {| config := Scenarios.defaultAR4Config; coefficients := None;
            returnHistory := [] |}) = Return None
  /\ fitAR4 Scenarios.somePow [0.01; -0.02; 0.015]%float = zero_fit.
Proof.
  destruct (short_history_emits_null Scenarios.somePow Scenarios.someToFixed
              Scenarios.someToString Scenarios.defaultAR4Config
              {| config := Scenarios.defaultAR4Config; coefficients := None;
                 returnHistory := [] |}
              (Scenarios.returnFeatures 0.01%float)
              [0.01; -0.02; 0.015]%float) as [Hfit Hnull].
  - vm_compute; reflexivity.
  - constructor.
  - split.
    + apply Hnull. vm_compute. repeat constructor.
    + apply Hfit. cbn. lia.
Defined.

End AR4Props.

(* ===================================================================== *)
(** ** Determinism of the stateful components *)
(* ===================================================================== *)

Module InstancesProps.
Import Instances.

Section Heap.

Context {Obj In Out : Type}.
Variable method : In -> M Obj Out.






End Heap.



End InstancesProps.

(* ===================================================================== *)
(** ** More facts on numbers: NaN, reflexivity, clamping *)
(* ===================================================================== *)

Module NumberFacts.
Import JS FloatFacts.

Lemma SFeqb_refl_not_nan x : SFeqb x x = false -> x = S754_nan.
Proof.
  unfold SFeqb. destruct x as [[|]|[|]| |[|] m e]; simpl;
    try discriminate; try reflexivity.
  all: rewrite Z.compare_refl;
    change (Pos.compare_cont Eq m m) with (Pos.compare m m);
    rewrite Pos.compare_refl; discriminate.
Qed.

(** A NaN is the NaN of the specification. *)
Lemma isNaN_spec (x : number) : isNaN x = true -> Prim2SF x = S754_nan.
Proof.
  unfold isNaN, PrimFloat.is_nan. intros H. apply negb_true_iff in H.
  rewrite FloatAxioms.eqb_spec in H. now apply SFeqb_refl_not_nan.
Qed.

(** Every comparison with NaN is false. *)
Lemma lt_nan_l (a b : number) : isNaN a = true -> lt a b = false.
Proof.
  intros H. unfold lt. rewrite FloatAxioms.ltb_spec, (isNaN_spec _ H). reflexivity.
Qed.

Lemma lt_nan_r (a b : number) : isNaN b = true -> lt a b = false.
Proof.
  intros H. unfold lt. rewrite FloatAxioms.ltb_spec, (isNaN_spec _ H).
  unfold SFltb. destruct (Prim2SF a); reflexivity.
Qed.

Lemma le_nan_l (a b : number) : isNaN a = true -> le a b = false.
Proof.
  intros H. unfold le. rewrite FloatAxioms.leb_spec, (isNaN_spec _ H). reflexivity.
Qed.

Lemma le_nan_r (a b : number) : isNaN b = true -> le a b = false.
Proof.
  intros H. unfold le. rewrite FloatAxioms.leb_spec, (isNaN_spec _ H).
  unfold SFleb. destruct (Prim2SF a); reflexivity.
Qed.

(** What compares is not NaN. *)
Lemma lt_not_nan (a b : number) :
  lt a b = true -> isNaN a = false /\ isNaN b = false.
Proof.
  intros H. split.
  - destruct (isNaN a) eqn:E; [|reflexivity]. rewrite (lt_nan_l a b E) in H. discriminate.
  - destruct (isNaN b) eqn:E; [|reflexivity]. rewrite (lt_nan_r a b E) in H. discriminate.
Qed.

Lemma le_not_nan (a b : number) :
  le a b = true -> isNaN a = false /\ isNaN b = false.
Proof.
  intros H. split.
  - destruct (isNaN a) eqn:E; [|reflexivity]. rewrite (le_nan_l a b E) in H. discriminate.
  - destruct (isNaN b) eqn:E; [|reflexivity]. rewrite (le_nan_r a b E) in H. discriminate.
Qed.

Lemma lt_le (a b : number) : lt a b = true -> le a b = true.
Proof.
  unfold lt, le. rewrite FloatAxioms.ltb_spec, FloatAxioms.leb_spec. apply SFltb_leb.
Qed.

Lemma lt_irrefl (a : number) : lt a a = false.
Proof.
  destruct (lt a a) eqn:E; [|reflexivity]. pose proof (lt_asym _ _ E). congruence.
Qed.

Lemma le_refl (a : number) : isNaN a = false -> le a a = true.
Proof.
  intros H. apply (not_lt_ge a a H H). apply lt_irrefl.
Qed.

Lemma SFleb_trans x y z : SFleb x y = true -> SFleb y z = true -> SFleb x z = true.
Proof.
  unfold SFleb.
  sf_cases x; sf_cases y; sf_cases z; simpl;
    try discriminate; try reflexivity; try (intros; assumption).
  all: cmp_cases; simpl; try discriminate; try reflexivity; try lia.
Qed.

Lemma le_trans (a b c : number) : le a b = true -> le b c = true -> le a c = true.
Proof.
  unfold le. rewrite !FloatAxioms.leb_spec. apply SFleb_trans.
Qed.

(** [Math.min] of two numbers that are not NaN is one of them, below both. *)
Lemma Math_min_spec (a b : number) :
  isNaN a = false -> isNaN b = false ->
  (Math_min a b = a \/ Math_min a b = b)
  /\ le (Math_min a b) a = true /\ le (Math_min a b) b = true.
Proof.
  intros Ha Hb. unfold Math_min. rewrite Ha, Hb. cbn [orb].
  destruct (lt a b) eqn:Hab.
  - split; [auto|]. split; [now apply le_refl | now apply lt_le].
  - destruct (lt b a) eqn:Hba.
    + split; [auto|]. split; [now apply lt_le | now apply le_refl].
    + pose proof (not_lt_ge a b Ha Hb Hab) as H1.
      pose proof (not_lt_ge b a Hb Ha Hba) as H2. unfold ge in *.
      destruct (is_neg_zero a); (split; [auto|]); split;
        auto using le_refl.
Qed.

(** [Math.max] of two numbers that are not NaN is one of them, above both. *)
Lemma Math_max_spec (a b : number) :
  isNaN a = false -> isNaN b = false ->
  (Math_max a b = a \/ Math_max a b = b)
  /\ le a (Math_max a b) = true /\ le b (Math_max a b) = true.
Proof.
  intros Ha Hb. unfold Math_max. rewrite Ha, Hb. cbn [orb].
  destruct (lt a b) eqn:Hab.
  - split; [auto|]. split; [now apply lt_le | now apply le_refl].
  - destruct (lt b a) eqn:Hba.
    + split; [auto|]. split; [now apply le_refl | now apply lt_le].
    + pose proof (not_lt_ge a b Ha Hb Hab) as H1.
      pose proof (not_lt_ge b a Hb Ha Hba) as H2. unfold ge in *.
      destruct (is_neg_zero a); (split; [auto|]); split;
        auto using le_refl.
Qed.

Lemma Math_min_nan (a b : number) :
  isNaN a = true \/ isNaN b = true -> Math_min a b = NaN.
Proof.
  unfold Math_min. intros [H|H]; rewrite H; [|rewrite orb_true_r]; reflexivity.
Qed.

Lemma Math_max_nan (a b : number) :
  isNaN a = true \/ isNaN b = true -> Math_max a b = NaN.
Proof.
  unfold Math_max. intros [H|H]; rewrite H; [|rewrite orb_true_r]; reflexivity.
Qed.

(** The clamp [Math.max(lo, Math.min(hi, x))]: within the bounds for a
    number, NaN for NaN. *)
Lemma clamp_spec (lo hi x : number) :
  le lo hi = true ->
  (isNaN x = false ->
     le lo (Math_max lo (Math_min hi x)) = true
     /\ le (Math_max lo (Math_min hi x)) hi = true)
  /\ (isNaN x = true -> Math_max lo (Math_min hi x) = NaN).
Proof.
  intros Hb. destruct (le_not_nan _ _ Hb) as [Hlo Hhi]. split.
  - intros Hx.
    destruct (Math_min_spec hi x Hhi Hx) as (Hm & Hmhi & _).
    assert (Hmn : isNaN (Math_min hi x) = false) by (destruct Hm as [-> | ->]; assumption).
    destruct (Math_max_spec lo (Math_min hi x) Hlo Hmn) as (HM & HMlo & _).
    split; [exact HMlo|].
    destruct HM as [-> | ->]; assumption.
  - intros Hx. rewrite (Math_min_nan hi x (or_intror Hx)).
    apply Math_max_nan. right. reflexivity.
Qed.

End NumberFacts.

(* ===================================================================== *)
(** ** The policy: the remaining transitions and what every call keeps *)
(* ===================================================================== *)

Module PolicyMore.
Import JS Core Policy FloatFacts CoreFacts NumberFacts.

(** The direction a score asks for. *)
Lemma direction_cases (score : number) :
  (if gt score 0%float then buy else sell) = buy \/
  (if gt score 0%float then buy else sell) = sell.
Proof. destruct (gt score 0%float); auto. Qed.

(** [buildOpenAction] writes the state first; it returns when the action
    it assembled passes [ActionSchema] and throws otherwise. *)
Lemma buildOpenAction_run (p : ThresholdAtrPolicy) (signal : AlphaSignal)
    (features : Features) (close atr : number) (d : Side) :
  buildOpenAction signal features close atr d p =
    ({| config := config p;
        state := {| side := Some d; size := openSize (config p) close atr |} |},
     if ActionSchema_ok (openAction (config p) signal close atr d)
     then Return (openAction (config p) signal close atr d)
     else Throw (ZodError "Action")).
Proof.
  cbv [buildOpenAction bind get set_state lift ActionSchema_parse].
  change ({| a_t := sig_t signal; a_symbol := sig_symbol signal;
             a_exch := sig_exch signal; a_side := d;
             a_size := openSize (config p) close atr; a_entry := None;
             a_bracket := Some (computeBracket (config p) close atr d);
             a_metadata := Some [("signalId", MStr (sig_id signal));
                                 ("signalScore", MNum (sig_score signal));
                                 ("signalConf", MNum (sig_conf signal));
                                 ("atr", MNum atr)] |})
    with (openAction (config p) signal close atr d).
  destruct (ActionSchema_ok _); reflexivity.
Qed.

(** X1: Opening from flat: with valid inputs that carry [atr_14] and [close],
    [|score| >= enterThreshold] and an open action that passes
    [ActionSchema], a flat policy returns the open action in the direction
    of the score and holds its side and size afterwards. *)
Theorem flat_opens_on_strong_signal (p : ThresholdAtrPolicy)
    (signal : AlphaSignal) (features : Features) (atr close : number) :
  side (state p) = None ->
  AlphaSignalSchema_ok signal = true ->
  FeaturesSchema_ok features = true ->
  f_vals features !! "atr_14" = Some atr ->
  f_vals features !! "close" = Some close ->
  ge (Math_abs (sig_score signal)) (enterThreshold (config p)) = true ->
  let d := if gt (sig_score signal) 0%float then buy else sell in
  ActionSchema_ok (openAction (config p) signal close atr d) = true ->
  generateAction signal features p =
    ({| config := config p;
        state := {| side := Some d; size := openSize (config p) close atr |} |},
     Return (Some (openAction (config p) signal close atr d))).
Proof.
  intros Hside Hsig Hfeat Hatr Hclose Henter d Hopen.
  unfold generateAction, bind, lift, AlphaSignalSchema_parse, FeaturesSchema_parse.
  rewrite Hsig, Hfeat, Hatr, Hclose.
  rewrite (valid_features_not_nan _ _ _ Hfeat Hatr),
          (valid_features_not_nan _ _ _ Hfeat Hclose).
  cbn [orb get]. rewrite Hside, Henter.
  fold d. rewrite buildOpenAction_run, Hopen. reflexivity.
Qed.

Lemma held_in_position (p : ThresholdAtrPolicy)
    (signal : AlphaSignal) (features : Features) (atr close : number) (cur : Side) :
  AlphaSignalSchema_ok signal = true ->
  FeaturesSchema_ok features = true ->
  f_vals features !! "atr_14" = Some atr ->
  f_vals features !! "close" = Some close ->
  side (state p) = Some cur ->
  (if gt (sig_score signal) 0%float then buy else sell) = cur
  \/ ge (Math_abs (sig_score signal)) (enterThreshold (config p)) = false ->
  lt (Math_abs (sig_score signal)) (exitThreshold (config p)) = false ->
  generateAction signal features p = (p, Return None).
Proof.
  intros Hsig Hfeat Hatr Hclose Hside Hsame Hexit.
  unfold generateAction, bind, lift, AlphaSignalSchema_parse, FeaturesSchema_parse.
  rewrite Hsig, Hfeat, Hatr, Hclose.
  rewrite (valid_features_not_nan _ _ _ Hfeat Hatr),
          (valid_features_not_nan _ _ _ Hfeat Hclose).
  cbn [orb get]. rewrite Hside, Hexit.
  replace (negb (Side_eqb (if gt (sig_score signal) 0%float then buy else sell)
                   match cur with buy => buy | sell => sell end)
           && ge (Math_abs (sig_score signal)) (enterThreshold (config p)))
    with false; [reflexivity|].
  destruct Hsame as [-> | ->]; [destruct cur; reflexivity|].
  now rewrite andb_false_r.
Qed.

(** X2: Below the thresholds nothing happens: a flat policy ignores a score
    under [enterThreshold]; a policy in a position holds when the score
    neither reverses it nor falls under [exitThreshold]. The call returns
    null and the policy is untouched. *)
Theorem weak_signal_changes_nothing (p : ThresholdAtrPolicy)
    (signal : AlphaSignal) (features : Features) (atr close : number) :
  AlphaSignalSchema_ok signal = true ->
  FeaturesSchema_ok features = true ->
  f_vals features !! "atr_14" = Some atr ->
  f_vals features !! "close" = Some close ->
  match side (state p) with
  | None => ge (Math_abs (sig_score signal)) (enterThreshold (config p)) = false
  | Some cur =>
      ((if gt (sig_score signal) 0%float then buy else sell) = cur
       \/ ge (Math_abs (sig_score signal)) (enterThreshold (config p)) = false)
      /\ lt (Math_abs (sig_score signal)) (exitThreshold (config p)) = false
  end ->
  generateAction signal features p = (p, Return None).
Proof.
  intros Hsig Hfeat Hatr Hclose Hband.
  destruct (side (state p)) as [cur|] eqn:Hside.
  - destruct Hband as [Hsame Hexit].
    exact (held_in_position p signal features atr close cur
             Hsig Hfeat Hatr Hclose Hside Hsame Hexit).
  - unfold generateAction, bind, lift, AlphaSignalSchema_parse, FeaturesSchema_parse.
    rewrite Hsig, Hfeat, Hatr, Hclose.
    rewrite (valid_features_not_nan _ _ _ Hfeat Hatr),
            (valid_features_not_nan _ _ _ Hfeat Hclose).
    cbn [orb get]. rewrite Hside, Hband. reflexivity.
Qed.

(** X3: A record without [atr_14] or without [close] gives null, untouched
    policy. A record that holds a NaN anywhere never reaches the policy's own
    NaN test: [FeaturesSchema.parse] throws first. An invalid signal throws
    before the record is looked at. In all three cases the policy is
    untouched. *)
Theorem missing_or_invalid_input (p : ThresholdAtrPolicy)
    (signal : AlphaSignal) (features : Features) :
  (AlphaSignalSchema_ok signal = false ->
     generateAction signal features p = (p, Throw (ZodError "AlphaSignal")))
  /\ (AlphaSignalSchema_ok signal = true ->
      (exists k v, f_vals features !! k = Some v /\ isNaN v = true) ->
      generateAction signal features p = (p, Throw (ZodError "Features")))
  /\ (AlphaSignalSchema_ok signal = true ->
      FeaturesSchema_ok features = true ->
      f_vals features !! "atr_14" = None \/ f_vals features !! "close" = None ->
      generateAction signal features p = (p, Return None)).
Proof.
  unfold generateAction, bind, lift, AlphaSignalSchema_parse, FeaturesSchema_parse.
  split; [|split].
  - intros ->. reflexivity.
  - intros -> (k & v & Hk & Hnan).
    destruct (FeaturesSchema_ok features) eqn:Hf; [|reflexivity].
    rewrite (valid_features_not_nan _ _ _ Hf Hk) in Hnan. discriminate.
  - intros -> -> [H | H]; rewrite H; [|destruct (f_vals features !! "atr_14")];
      reflexivity.
Qed.

Lemma generateAction_config (p : ThresholdAtrPolicy)
    (signal : AlphaSignal) (features : Features) :
  config (fst (generateAction signal features p)) = config p.
Proof.
  cbv [generateAction bind lift AlphaSignalSchema_parse FeaturesSchema_parse
       buildOpenAction buildCloseAction set_state get ret throw
       ActionSchema_parse].
  repeat (case_match; simplify_eq); reflexivity.
Qed.

(** X4: No call changes the configuration, whether it returns or throws. *)
Theorem configuration_is_kept (p : ThresholdAtrPolicy)
    (signal : AlphaSignal) (features : Features) :
  config (fst (generateAction signal features p)) = config p
  /\ config (fst (reset p)) = config p.
Proof.
  split; [apply generateAction_config | reflexivity].
Qed.

(** A size that [ActionSchema] accepts came out of the clamp below
    [maxSize]. *)
Lemma openSize_bounded (c : ThresholdAtrConfig) (close atr : number) :
  z_positive (openSize c close atr) = true ->
  le (openSize c close atr) (maxSize c) = true.
Proof.
  unfold openSize.
  set (sz := if useAtrSizing c then _ else _).
  intros Hpos.
  destruct (isNaN sz) eqn:Hsz.
  { rewrite (Math_min_nan sz (maxSize c) (or_introl Hsz)) in Hpos. discriminate. }
  destruct (isNaN (maxSize c)) eqn:Hmax.
  { rewrite (Math_min_nan sz (maxSize c) (or_intror Hmax)) in Hpos. discriminate. }
  apply (Math_min_spec sz (maxSize c) Hsz Hmax).
Qed.

(** [buildCloseAction], when it returns, returns the close action of the
    position held and leaves the policy flat. *)
Lemma buildCloseAction_outcome (p q' : ThresholdAtrPolicy) (signal : AlphaSignal)
    (features : Features) (close : number) (a : Action) :
  buildCloseAction signal features close p = (q', Return a) ->
  exists cur, side (state p) = Some cur
    /\ a = closeAction signal close cur (size (state p))
    /\ ActionSchema_ok a = true
    /\ q' = {| config := config p; state := flat |}.
Proof.
  intros Hq. cbv [buildCloseAction bind get throw set_state lift
                  ActionSchema_parse] in Hq.
  destruct (side (state p)) as [cur|]; [|now simplify_eq].
  destruct (strict_eq (size (state p)) 0%float); [now simplify_eq|].
  destruct (ActionSchema_ok _) eqn:Hok; simplify_eq.
  exists cur. unfold closeAction, opposite.
  repeat split; try reflexivity; try (destruct cur; reflexivity);
    destruct cur; exact Hok.
Qed.

(** [buildOpenAction], when it returns, returns a valid open action whose
    side and size the state now holds. *)
Lemma buildOpenAction_outcome (q q' : ThresholdAtrPolicy) (signal : AlphaSignal)
    (features : Features) (close atr : number) (d : Side) (a : Action) :
  buildOpenAction signal features close atr d q = (q', Return a) ->
  ActionSchema_ok a = true
  /\ a_entry a = None
  /\ state q' = {| side := Some (a_side a); size := a_size a |}
  /\ z_positive (a_size a) = true
  /\ le (a_size a) (maxSize (config q)) = true.
Proof.
  intros Hq. rewrite buildOpenAction_run in Hq.
  destruct (ActionSchema_ok (openAction (config q) signal close atr d)) eqn:Hok;
    [|discriminate].
  injection Hq as <- <-.
  pose proof Hok as Hok'. unfold ActionSchema_ok in Hok'. cbn in Hok'. split_andb.
  repeat split; cbn [a_size a_entry a_side openAction state];
    auto using openSize_bounded.
Qed.

(** X5: What a returning call did. It never changes the configuration. If it
    returns null the policy is untouched. If it returns an action, the
    action passes [ActionSchema] and is either an open action - no entry, a
    size above zero and at most [maxSize], and the state now holds the
    action's side and size - or the close action of the position held - and
    the policy is flat. *)
Theorem returning_call_outcome (p p' : ThresholdAtrPolicy)
    (signal : AlphaSignal) (features : Features) (r : option Action) :
  generateAction signal features p = (p', Return r) ->
  config p' = config p
  /\ match r with
     | None => p' = p
     | Some a =>
         ActionSchema_ok a = true
         /\ ((a_entry a = None
              /\ state p' = {| side := Some (a_side a); size := a_size a |}
              /\ z_positive (a_size a) = true
              /\ le (a_size a) (maxSize (config p)) = true)
             \/ (exists cur close,
                   side (state p) = Some cur
                   /\ f_vals features !! "close" = Some close
                   /\ a = closeAction signal close cur (size (state p))
                   /\ state p' = flat))
     end.
Proof.
  intros H.
  split; [pose proof (generateAction_config p signal features) as Hc;
          rewrite H in Hc; exact Hc|].
  cbv [generateAction bind lift AlphaSignalSchema_parse FeaturesSchema_parse get ret] in H.
  destruct (AlphaSignalSchema_ok signal); [|discriminate].
  destruct (FeaturesSchema_ok features); [|discriminate].
  destruct (f_vals features !! "atr_14") as [atr|]; [|now simplify_eq].
  destruct (f_vals features !! "close") as [close|]; [|now simplify_eq].
  destruct (isNaN atr || isNaN close); [now simplify_eq|].
  set (d := if gt (sig_score signal) 0%float then buy else sell) in *.
  destruct (side (state p)) as [cur|] eqn:Hside.
  - destruct (negb _ && _).
    + destruct (buildCloseAction signal features close p) as [q1 [a1|e1]] eqn:Hq1;
        [|discriminate].
      destruct (buildCloseAction_outcome _ _ _ _ _ _ Hq1) as (cur' & _ & _ & _ & ->).
      cbv [set_state] in H. cbn [config] in H.
      match type of H with
      | context [buildOpenAction _ _ _ _ _ ?q] =>
          destruct (buildOpenAction signal features close atr d q)
            as [q' [a|e]] eqn:Hq
      end; [|discriminate].
      injection H as <- <-.
      destruct (buildOpenAction_outcome _ _ _ _ _ _ _ _ Hq) as (? & ? & ? & ? & ?).
      split; [assumption|]. left. auto.
    + destruct (lt _ _); [|now simplify_eq].
      destruct (buildCloseAction signal features close p) as [q1 [a1|e1]] eqn:Hq1;
        [|discriminate].
      injection H as <- <-.
      destruct (buildCloseAction_outcome _ _ _ _ _ _ Hq1) as (cur' & Hcur & -> & Hok & ->).
      split; [exact Hok|]. right. exists cur', close.
      rewrite Hside in Hcur. repeat split; auto.
  - destruct (ge _ _); [|now simplify_eq].
    destruct (buildOpenAction signal features close atr d p) as [q' [a|e]] eqn:Hq;
      [|discriminate].
    injection H as <- <-.
    destruct (buildOpenAction_outcome _ _ _ _ _ _ _ _ Hq) as (? & ? & ? & ? & ?).
    split; [assumption|]. left. auto.
Qed.

(** X6: Hysteresis at work: on a constructed policy, the signal that opened a
    position, presented again with the same record, is held - the second
    call returns null and leaves the position as it is. *)
Theorem repeated_signal_is_held (p : ThresholdAtrPolicy)
    (signal : AlphaSignal) (features : Features) (a : Action) :
  constructed p ->
  side (state p) = None ->
  snd (generateAction signal features p) = Return (Some a) ->
  generateAction signal features (fst (generateAction signal features p)) =
    (fst (generateAction signal features p), Return None).
Proof.
  intros Hctor Hside Hfirst.
  destruct (generateAction signal features p) as [p1 r] eqn:Hrun.
  cbn [fst snd] in *. subst r.
  pose proof Hrun as Hrun'.
  unfold generateAction, bind, lift, AlphaSignalSchema_parse, FeaturesSchema_parse in Hrun'.
  destruct (AlphaSignalSchema_ok signal) eqn:Hsig; [|discriminate].
  destruct (FeaturesSchema_ok features) eqn:Hfeat; [|discriminate].
  destruct (f_vals features !! "atr_14") as [atr|] eqn:Hatr; [|discriminate].
  destruct (f_vals features !! "close") as [close|] eqn:Hclose; [|discriminate].
  destruct (isNaN atr || isNaN close); [discriminate|].
  cbn [get] in Hrun'. rewrite Hside in Hrun'.
  destruct (ge (Math_abs (sig_score signal)) (enterThreshold (config p))) eqn:Henter;
    [|discriminate].
  rewrite buildOpenAction_run in Hrun'.
  destruct (ActionSchema_ok _); [|discriminate].
  cbv [ret] in Hrun'. injection Hrun' as <- _.
  apply (held_in_position _ signal features atr close
           (if gt (sig_score signal) 0%float then buy else sell)
           Hsig Hfeat Hatr Hclose);
    [reflexivity | left; reflexivity |].
  cbn [state side config].
  destruct (lt (Math_abs (sig_score signal)) (exitThreshold (config p))) eqn:Hexit;
    [|reflexivity].
  pose proof (le_lt_trans _ _ _ Henter Hexit) as Hlt.
  rewrite (PolicyProps.constructed_hysteresis _ Hctor) in Hlt. discriminate.
Qed.

(** *** Scenarios *)

(** The open of the test suite: flat, score 0.8, price 50000, ATR 500. *)
Lemma flat_opens_on_strong_signal_witness :
  generateAction (Scenarios.mockSignal 0.8%float)
    (Scenarios.priceFeatures 50000%float 500%float)
    {| config := Scenarios.defaultPolicyConfig; state := flat |} =
  ({| config := Scenarios.defaultPolicyConfig;
      state := {| side := Some buy;
                  size := openSize Scenarios.defaultPolicyConfig 50000%float 500%float |} |},
   Return (Some (openAction Scenarios.defaultPolicyConfig (Scenarios.mockSignal 0.8%float)
                   50000%float 500%float buy))).
Proof.
  apply (flat_opens_on_strong_signal
           {| config := Scenarios.defaultPolicyConfig; state := flat |}
           (Scenarios.mockSignal 0.8%float)
           (Scenarios.priceFeatures 50000%float 500%float)
           500%float 50000%float); vm_compute; reflexivity.
Defined.

(** A flat policy and score 0.2. *)
Lemma weak_signal_changes_nothing_witness :
  generateAction (Scenarios.mockSignal 0.2%float)
    (Scenarios.priceFeatures 50000%float 500%float)
    {| config := Scenarios.defaultPolicyConfig; state := flat |} =
  ({| config := Scenarios.defaultPolicyConfig; state := flat |}, Return None).
Proof.
  apply (weak_signal_changes_nothing
           {| config := Scenarios.defaultPolicyConfig; state := flat |}
           (Scenarios.mockSignal 0.2%float)
           (Scenarios.priceFeatures 50000%float 500%float)
           500%float 50000%float); vm_compute; reflexivity.
Defined.

(** The open of the test suite, read from its result. *)
Lemma returning_call_outcome_witness :
  generateAction (Scenarios.mockSignal 0.8%float)
    (Scenarios.priceFeatures 50000%float 500%float)
    {| config := Scenarios.defaultPolicyConfig; state := flat |} =
  (Scenarios.longPolicy Scenarios.defaultPolicyConfig 50000%float 500%float,
   Return (Some (openAction Scenarios.defaultPolicyConfig (Scenarios.mockSignal 0.8%float)
                   50000%float 500%float buy)))
  /\ config (Scenarios.longPolicy Scenarios.defaultPolicyConfig 50000%float 500%float) =
       Scenarios.defaultPolicyConfig.
Proof.
  assert (Hrun :
            generateAction (Scenarios.mockSignal 0.8%float)
              (Scenarios.priceFeatures 50000%float 500%float)
              {| config := Scenarios.defaultPolicyConfig; state := flat |} =
            (Scenarios.longPolicy Scenarios.defaultPolicyConfig 50000%float 500%float,
             Return (Some (openAction Scenarios.defaultPolicyConfig
                             (Scenarios.mockSignal 0.8%float)
                             50000%float 500%float buy))))
    by (vm_compute; reflexivity).
  split; [exact Hrun|].
  exact (proj1 (returning_call_outcome _ _ _ _ _ Hrun)).
Defined.

(** The same strong signal twice: the second call holds. *)
Lemma repeated_signal_is_held_witness :
  let p := {| config := Scenarios.defaultPolicyConfig; state := flat |} in
  let signal := Scenarios.mockSignal 0.8%float in
  let features := Scenarios.priceFeatures 50000%float 500%float in
  generateAction signal features (fst (generateAction signal features p)) =
    (fst (generateAction signal features p), Return None).
Proof.
  cbv zeta.
  apply (repeated_signal_is_held
           {| config := Scenarios.defaultPolicyConfig; state := flat |}
           (Scenarios.mockSignal 0.8%float)
           (Scenarios.priceFeatures 50000%float 500%float)
           (openAction Scenarios.defaultPolicyConfig (Scenarios.mockSignal 0.8%float)
              50000%float 500%float buy)).
  - apply (PolicyProps.default_policy_constructed flat).
  - reflexivity.
  - vm_compute; reflexivity.
Defined.

End PolicyMore.

(* ===================================================================== *)
(** ** The MACD alpha: what is stored and what is emitted *)
(* ===================================================================== *)

Module MACDMore.
Import JS Core MACD FloatFacts CoreFacts NumberFacts.

Section WithBuiltins.

Variable toFixed : number -> nat -> string.
Variable Number_toString : number -> string.

(** X7: Every call that reads three values, none of them NaN, stores them as
    the previous observation and keeps the configuration - whether it
    returns a signal, returns null, or throws on the signal it built. *)
Theorem observation_is_stored (m : MACDAlpha) (features : Features)
    (macd signal histogram : number) :
  f_vals features !! "macd" = Some macd ->
  f_vals features !! "macd_signal" = Some signal ->
  f_vals features !! "macd_histogram" = Some histogram ->
  isNaN macd = false -> isNaN signal = false -> isNaN histogram = false ->
  fst (generateSignal toFixed Number_toString features m) =
    {| config := config m; state := observed macd signal histogram |}.
Proof.
  intros Hm Hs Hh Nm Ns Nh.
  unfold generateSignal. rewrite Hm, Hs, Hh, Nm, Ns, Nh. cbn [orb].
  cbv [bind get updateState ret lift AlphaSignalSchema_parse].
  repeat (case_match; simplify_eq); reflexivity.
Qed.

(** The confidence of the histogram fallback is one of three constants, and
    0.5 when there is no previous histogram. *)
Lemma histogram_confidence (st : MACDState) (histogram : number) :
  (hs_conf (computeHistogramSignal toFixed st histogram) = 0.7%float
   \/ hs_conf (computeHistogramSignal toFixed st histogram) = 0.5%float
   \/ hs_conf (computeHistogramSignal toFixed st histogram) = 0.3%float)
  /\ (prevHistogram st = None ->
      hs_conf (computeHistogramSignal toFixed st histogram) = 0.5%float)
  /\ hs_score (computeHistogramSignal toFixed st histogram) =
       Math_max (-1)%float (Math_min 1%float (histogram * 1000)%float).
Proof.
  unfold computeHistogramSignal. cbn [hs_conf hs_score].
  destruct (prevHistogram st) as [ph|].
  - split; [|split; [discriminate | reflexivity]].
    destruct (_ || _); auto.
  - split; [auto|]. split; reflexivity.
Qed.

(** X8: What an emitted signal looks like. It passes [AlphaSignalSchema], its
    score is not zero, and its confidence is 0.8, 0.7, 0.5 or 0.3.
    Confidence 0.8 is only given in crossover mode with a previous
    observation stored; an instance without a previous observation (fresh,
    or reset) emits the clamped histogram score
    [clamp(-1, 1, histogram * 1000)] at confidence 0.5. The header and the
    horizon are the record's and the configuration's. *)
Theorem emitted_signal_shape (m m' : MACDAlpha) (features : Features)
    (s : AlphaSignal) :
  generateSignal toFixed Number_toString features m = (m', Return (Some s)) ->
  AlphaSignalSchema_ok s = true
  /\ strict_eq (sig_score s) 0%float = false
  /\ (sig_conf s = 0.8%float \/ sig_conf s = 0.7%float
      \/ sig_conf s = 0.5%float \/ sig_conf s = 0.3%float)
  /\ (state m = initial ->
      sig_conf s = 0.5%float
      /\ exists histogram,
           f_vals features !! "macd_histogram" = Some histogram
           /\ sig_score s =
                Math_max (-1)%float (Math_min 1%float (histogram * 1000)%float))
  /\ (useCrossover (config m) = false \/ prevMacd (state m) = None ->
      sig_conf s = 0.8%float -> False)
  /\ sig_t s = f_t features /\ sig_symbol s = f_symbol features
  /\ sig_exch s = f_exch features /\ sig_tf s = f_tf features
  /\ sig_horizon_sec s = horizonSec (config m).
Proof.
  unfold generateSignal.
  destruct (f_vals features !! "macd") as [macd|]; [|discriminate].
  destruct (f_vals features !! "macd_signal") as [signal|]; [|discriminate].
  destruct (f_vals features !! "macd_histogram") as [histogram|] eqn:Hh; [|discriminate].
  destruct (isNaN macd || isNaN signal || isNaN histogram); [discriminate|].
  cbv [bind get updateState ret lift AlphaSignalSchema_parse].
  destruct (lt (Math_abs histogram) (minHistogram (config m))); [discriminate|].
  destruct (histogram_confidence (state m) histogram) as (Hconf & Hfirst & Hscore).
  set (fallback := computeHistogramSignal toFixed (state m) histogram) in *.
  set (result := match useCrossover (config m), prevMacd (state m) with
                 | true, Some _ => _
                 | _, _ => _
                 end).
  assert (Hresult :
            (hs_conf result = 0.8%float /\ useCrossover (config m) = true
             /\ prevMacd (state m) <> None)
            \/ result = fallback).
  { subst result. destruct (useCrossover (config m)); [|auto].
    destruct (prevMacd (state m)); [|auto].
    destruct (detectCrossover (state m) macd signal) as [[|]|]; auto;
      left; repeat split; discriminate. }
  destruct (strict_eq (hs_score result) 0%float || strict_eq (hs_conf result) 0%float)
    eqn:Hzero; [discriminate|].
  destruct (AlphaSignalSchema_ok _) eqn:Hok; [|discriminate].
  intros H. injection H as _ <-. cbn [sig_score sig_conf sig_t sig_symbol sig_exch
                                      sig_tf sig_horizon_sec].
  apply orb_false_iff in Hzero. destruct Hzero as [Hz _].
  split; [exact Hok|]. split; [exact Hz|]. split; [|split; [|split]].
  - destruct Hresult as [(-> & _) | ->]; [auto|].
    destruct Hconf as [-> | [-> | ->]]; auto.
  - intros Hinit. rewrite Hinit in *. cbn in Hresult.
    destruct Hresult as [(_ & _ & Hprev) | ->]; [contradiction|].
    split; [apply Hfirst; reflexivity|]. exists histogram. split; [reflexivity|].
    exact Hscore.
  - intros Hoff Hconf8.
    destruct Hresult as [(_ & Hon & Hprev) | ->].
    + destruct Hoff as [Hoff | Hoff]; congruence.
    + assert (Hne : forall x, (x = 0.7 \/ x = 0.5 \/ x = 0.3)%float -> x = 0.8%float -> False).
      { intros x Hx ->.
        assert (He : forall y, 0.8%float = y -> PrimFloat.eqb 0.8 y = true)
          by (intros y <-; reflexivity).
        destruct Hx as [Hx | [Hx | Hx]]; apply He in Hx; vm_compute in Hx; discriminate. }
      exact (Hne _ Hconf Hconf8).
  - repeat split; reflexivity.
Qed.

End WithBuiltins.

(** *** Scenarios *)

(** A fresh plugin reads (0.01, 0.005, 0.005). *)
Lemma observation_is_stored_witness :
  fst (generateSignal Scenarios.someToFixed Scenarios.someToString
         (Scenarios.macdFeatures 0.01%float 0.005%float 0.005%float)
         {| config := Scenarios.defaultMACDConfig; state := initial |}) =
  {| config := Scenarios.defaultMACDConfig;
     state := observed 0.01%float 0.005%float 0.005%float |}.
Proof.
  apply (observation_is_stored Scenarios.someToFixed Scenarios.someToString
           {| config := Scenarios.defaultMACDConfig; state := initial |}
           (Scenarios.macdFeatures 0.01%float 0.005%float 0.005%float)
           0.01%float 0.005%float 0.005%float); vm_compute; reflexivity.
Defined.

(** The signal a fresh plugin emits on (0.01, 0.005, 0.005): the histogram
    fallback at confidence 0.5. *)
Lemma emitted_signal_shape_witness :
  exists m' s,
    generateSignal Scenarios.someToFixed Scenarios.someToString
      (Scenarios.macdFeatures 0.01%float 0.005%float 0.005%float)
      {| config := Scenarios.defaultMACDConfig; state := initial |} =
    (m', Return (Some s))
    /\ AlphaSignalSchema_ok s = true
    /\ sig_conf s = 0.5%float.
Proof.
  eexists _, _. split; [vm_compute; reflexivity|].
  split.
  - eapply proj1,
      (emitted_signal_shape Scenarios.someToFixed Scenarios.someToString
         {| config := Scenarios.defaultMACDConfig; state := initial |} _
         (Scenarios.macdFeatures 0.01%float 0.005%float 0.005%float)).
    vm_compute; reflexivity.
  - reflexivity.
Defined.

End MACDMore.

(* ===================================================================== *)
(** ** The AR(4) alpha: history, refits and what is emitted *)
(* ===================================================================== *)

Module AR4More.
Import JS Core AR4 GaussJordanSpec FloatFacts CoreFacts NumberFacts.

(** *** The shape of the inverse *)

(** Every row has [k] entries. *)
Local Abbreviation rows_of k m := (Forall (fun row : vector => length row = k) m).

Lemma set2_shape (k : nat) (m : matrix) (r c : nat) (x : number) :
  rows_of k m -> rows_of k (set2 m r c x) /\ length (set2 m r c x) = length m.
Proof.
  intros H. unfold set2. destruct (m !! r) as [row|] eqn:Hr; [|auto].
  split; [|apply length_insert].
  apply Forall_insert; [exact H|].
  rewrite length_insert. exact (Forall_lookup_1 _ _ _ _ H Hr).
Qed.

Lemma swapRows_shape (k : nat) (m : matrix) (i j : nat) :
  rows_of k m -> rows_of k (swapRows i j m) /\ length (swapRows i j m) = length m.
Proof.
  intros H. unfold swapRows.
  destruct (m !! i) as [ri|] eqn:Hi; [|auto].
  destruct (m !! j) as [rj|] eqn:Hj; [|auto].
  split; [|now rewrite !length_insert].
  apply Forall_insert; [apply Forall_insert; [exact H|]|].
  - exact (Forall_lookup_1 _ _ _ _ H Hj).
  - exact (Forall_lookup_1 _ _ _ _ H Hi).
Qed.

(** A loop whose every turn keeps the shape keeps the shape. *)
Lemma fold_shape {A} (k n : nat) (f : matrix -> A -> matrix) (xs : list A) :
  (forall m x, rows_of k m /\ length m = n ->
               rows_of k (f m x) /\ length (f m x) = n) ->
  forall m, rows_of k m /\ length m = n ->
            rows_of k (fold_left f xs m) /\ length (fold_left f xs m) = n.
Proof.
  intros Hf. induction xs as [|x xs IH]; intros m Hm; cbn [fold_left]; auto.
Qed.

Lemma scalePivotRow_shape (k n' n i : nat) (m : matrix) :
  rows_of k m /\ length m = n' ->
  rows_of k (scalePivotRow n i m) /\ length (scalePivotRow n i m) = n'.
Proof.
  unfold scalePivotRow. apply fold_shape. intros m' j [H1 H2].
  destruct (set2_shape k m' i j (at2 m' i j / at2 m i i)%float H1). split; congruence.
Qed.

Lemma eliminateColumn_shape (k n' n i : nat) (m : matrix) :
  rows_of k m /\ length m = n' ->
  rows_of k (eliminateColumn n i m) /\ length (eliminateColumn n i m) = n'.
Proof.
  unfold eliminateColumn. apply fold_shape. intros m' r Hm'.
  destruct (Nat.eqb r i); [exact Hm'|].
  revert Hm'. apply fold_shape. intros m'' j [H1 H2].
  destruct (set2_shape k m'' r j
              (at2 m'' r j - at2 m' r i * at2 m'' i j)%float H1).
  split; congruence.
Qed.

Lemma forwardElimination_shape (k n' n : nat) (steps : list nat) :
  forall m m', rows_of k m /\ length m = n' ->
    forwardElimination n steps m = Some m' ->
    rows_of k m' /\ length m' = n'.
Proof.
  induction steps as [|i rest IH]; intros m m' Hm; cbn [forwardElimination].
  - intros H. now simplify_eq.
  - unfold eliminationStep.
    destruct (lt _ _); [discriminate|]. apply IH.
    apply eliminateColumn_shape, scalePivotRow_shape.
    destruct Hm as [H1 H2].
    destruct (swapRows_shape k m i (pivotRow n i m) H1). split; congruence.
Qed.

Lemma augment_shape (m : matrix) :
  square m ->
  rows_of (length m + length m)%nat (augment m) /\ length (augment m) = length m.
Proof.
  intros Hsq. unfold augment. split; [|apply length_imap].
  apply Forall_lookup. intros i row Hrow.
  rewrite list_lookup_imap in Hrow.
  destruct (m !! i) as [r0|] eqn:Hi; [|discriminate]. cbn in Hrow. simplify_eq.
  rewrite length_app, length_map. unfold range. rewrite length_seq, Nat.sub_0_r.
  now rewrite (Forall_lookup_1 _ _ _ _ Hsq Hi).
Qed.

Lemma identity_shape (n : nat) :
  rows_of n (identity n) /\ length (identity n) = n.
Proof.
  unfold identity, range. rewrite length_map, length_seq, Nat.sub_0_r.
  split; [|reflexivity].
  apply Forall_forall. intros row Hrow.
  apply list_elem_of_In, in_map_iff in Hrow. destruct Hrow as (i & <- & _).
  now rewrite length_map, length_seq.
Qed.

(** X9: The inverse of an [n] by [n] matrix is [n] by [n], in the singular
    fallback as in the regular case, so [solveOLS] never reads outside
    it. *)
Theorem invertMatrix_keeps_shape (m : matrix) :
  square m ->
  length (invertMatrix m) = length m
  /\ square (invertMatrix m).
Proof.
  intros Hsq. unfold invertMatrix, square.
  destruct (forwardElimination _ _ _) as [aug|] eqn:Hfe.
  - destruct (forwardElimination_shape _ _ _ _ _ _ (augment_shape m Hsq) Hfe)
      as [Hrows Hlen].
    rewrite length_map. split; [exact Hlen|].
    apply Forall_forall. intros row Hrow.
    apply list_elem_of_In, in_map_iff in Hrow. destruct Hrow as (r0 & <- & Hin).
    rewrite length_drop, Hlen.
    apply list_elem_of_In in Hin.
    rewrite (proj1 (Forall_forall _ _) Hrows r0 Hin). lia.
  - destruct (identity_shape (length m)) as [H1 H2]. rewrite H2. auto.
Qed.

(** *** Fits, history and emitted signals *)

Section WithBuiltins.

Variable Math_pow : number -> number -> number.
Variable toFixed : number -> nat -> string.
Variable Number_toString : number -> string.

(** X10: The goodness of fit is clamped, not rejected: it lies in [[0, 1]] -
    or it is NaN, which the clamp lets through. *)
Theorem rSquared_is_clamped (returns : vector) :
  isNaN (rSquared (fitAR4 Math_pow returns)) = true
  \/ (le 0%float (rSquared (fitAR4 Math_pow returns)) = true
      /\ le (rSquared (fitAR4 Math_pow returns)) 1%float = true).
Proof.
  unfold fitAR4.
  destruct (length returns <? 10)%nat; [right; split; reflexivity|].
  destruct (length _ =? 0)%nat; [right; split; reflexivity|].
  cbn [rSquared].
  match goal with
  | |- context [Math_max 0%float (Math_min 1%float ?x)] => set (r2 := x)
  end.
  destruct (clamp_spec 0%float 1%float r2 eq_refl) as [Hnum Hnan].
  destruct (isNaN r2) eqn:E.
  - left. rewrite (Hnan eq_refl). reflexivity.
  - right. exact (Hnum eq_refl).
Qed.

Lemma generateSignal_skips (a : AR4Alpha) (features : Features) :
  f_vals features !! "return_1" = None
  \/ (exists r, f_vals features !! "return_1" = Some r /\ isNaN r = true) ->
  generateSignal Math_pow toFixed Number_toString features a = (a, Return None).
Proof.
  unfold generateSignal. intros [-> | (r & -> & ->)]; reflexivity.
Qed.

Lemma generateSignal_config (a : AR4Alpha) (features : Features) :
  config (fst (generateSignal Math_pow toFixed Number_toString features a)) =
    config a.
Proof.
  destruct (f_vals features !! "return_1") as [r|] eqn:Hr.
  - destruct (isNaN r) eqn:Hnan.
    + rewrite generateSignal_skips; [reflexivity|]. right. eauto.
    + now rewrite (AR4Props.generateSignal_accumulates _ _ _ a features r Hr Hnan).
  - rewrite generateSignal_skips; auto.
Qed.

(** X11: A call without a usable [return_1] (missing, or NaN) returns null and
    touches nothing; any other call takes the return in - append, drop the
    oldest beyond [fitWindow], refit on schedule - whatever it then returns,
    and never changes the configuration. *)
Theorem return_is_taken_in (a : AR4Alpha) (features : Features) :
  (f_vals features !! "return_1" = None
   \/ (exists r, f_vals features !! "return_1" = Some r /\ isNaN r = true) ->
   generateSignal Math_pow toFixed Number_toString features a = (a, Return None))
  /\ (forall r, f_vals features !! "return_1" = Some r -> isNaN r = false ->
       fst (generateSignal Math_pow toFixed Number_toString features a) =
         accumulate Math_pow a r)
  /\ config (fst (generateSignal Math_pow toFixed Number_toString features a)) =
       config a.
Proof.
  split; [exact (generateSignal_skips a features)|]. split.
  - intros r Hr Hnan. now apply AR4Props.generateSignal_accumulates.
  - apply generateSignal_config.
Qed.

(** X12: The history is a bounded buffer: a reachable instance never holds more
    returns than [fitWindow]. *)
Theorem history_is_bounded (c : AR4Config) (a : AR4Alpha) :
  z_positive (fitWindow c) = true ->
  reachable Math_pow toFixed Number_toString c a ->
  config a = c
  /\ gt (of_nat (length (returnHistory a))) (fitWindow c) = false.
Proof.
  intros Hw.
  assert (Hzero : gt (of_nat 0) (fitWindow c) = false).
  { unfold z_positive in Hw. split_andb.
    change (of_nat 0) with 0%float. unfold gt.
    destruct (PrimFloat.ltb (fitWindow c) 0) eqn:E; [|reflexivity].
    change (lt (fitWindow c) 0%float = true) in E. apply lt_le in E.
    match goal with H : negb (le _ _) = true |- _ => rewrite E in H; discriminate end. }
  induction 1 as [|a features Hr [IHc IHb]|a Hr [IHc IHb]].
  - cbn. auto.
  - pose proof (generateSignal_skips a features) as Hbad.
    pose proof (fun r => AR4Props.generateSignal_accumulates
                           Math_pow toFixed Number_toString a features r) as Hacc.
    pose proof (generateSignal_config a features) as Hcfg.
    split; [congruence|].
    destruct (f_vals features !! "return_1") as [r|] eqn:Hret.
    + destruct (isNaN r) eqn:Hnan.
      * rewrite Hbad; [exact IHb|]. right. eauto.
      * rewrite (Hacc r eq_refl Hnan). unfold accumulate. cbv zeta.
        cbn [returnHistory]. rewrite IHc.
        destruct (gt (of_nat (length (returnHistory a ++ [r]))) (fitWindow c)) eqn:Hfull.
        -- rewrite length_tl, length_app. cbn [length].
           replace (length (returnHistory a) + 1 - 1)%nat
             with (length (returnHistory a)) by lia.
           exact IHb.
        -- exact Hfull.
    + rewrite Hbad; auto.
  - cbn. auto.
Qed.

(** A reachable instance without a fit has an empty history, and a fit held
    with fewer than 20 returns is the zero fit: the first refit on data comes
    with the 20th return. *)
Lemma reachable_first_refit (c : AR4Config) (a : AR4Alpha) :
  reachable Math_pow toFixed Number_toString c a ->
  config a = c
  /\ match coefficients a with
     | None => returnHistory a = []
     | Some fit => (length (returnHistory a) < 20)%nat -> fit = zero_fit
     end.
Proof.
  induction 1 as [|a features Hr [IHc IHinv]|a Hr [IHc IHinv]].
  - cbn. auto.
  - pose proof (generateSignal_skips a features) as Hbad.
    pose proof (fun r => AR4Props.generateSignal_accumulates
                           Math_pow toFixed Number_toString a features r) as Hacc.
    pose proof (generateSignal_config a features) as Hcfg.
    split; [congruence|].
    destruct (f_vals features !! "return_1") as [r|] eqn:Hret.
    + destruct (isNaN r) eqn:Hnan.
      * rewrite Hbad; [exact IHinv|]. right. eauto.
      * rewrite (Hacc r eq_refl Hnan). unfold accumulate. cbv zeta.
        cbn [returnHistory coefficients].
        set (pushed := returnHistory a ++ [r]).
        set (history := if gt (of_nat (length pushed)) (fitWindow (config a))
                        then tail pushed else pushed).
        assert (Hlen : (length (returnHistory a) <= length history)%nat).
        { subst history pushed. destruct (gt _ _).
          - rewrite length_tl, length_app. cbn. lia.
          - rewrite length_app. cbn. lia. }
        destruct (coefficients a) as [fit|] eqn:Hfit.
        -- rewrite orb_false_r.
           destruct (length history mod 20 =? 0)%nat eqn:Hmod.
           ++ intros Hshort. apply AR4Props.fitAR4_short.
              apply Nat.eqb_eq in Hmod.
              rewrite (Nat.mod_small _ _ Hshort) in Hmod. lia.
           ++ intros Hshort. apply IHinv. lia.
        -- rewrite orb_true_r. intros Hshort.
           apply AR4Props.fitAR4_short.
           subst history pushed. rewrite IHinv. cbn [app length tail].
           match goal with
           | |- context [if ?b then _ else _] => destruct b
           end; cbn [length]; lia.
    + rewrite Hbad; auto.
  - cbn. auto.
Qed.

(** X13: The refit schedule delays the first signal: with [minRSquared > 0], a
    call after which fewer than 20 returns are held returns null - the fit
    made on the first return is kept until the history length reaches a
    multiple of 20. *)
Theorem no_signal_before_twenty_returns (c : AR4Config) (a : AR4Alpha)
    (features : Features) :
  lt 0%float (minRSquared c) = true ->
  reachable Math_pow toFixed Number_toString c a ->
  (length (returnHistory
             (fst (generateSignal Math_pow toFixed Number_toString features a))) < 20)%nat ->
  snd (generateSignal Math_pow toFixed Number_toString features a) = Return None.
Proof.
  intros Hmin Hreach Hshort.
  pose proof (reach_generateSignal Math_pow toFixed Number_toString c a features Hreach)
    as Hnext.
  destruct (reachable_first_refit c a Hreach) as [Hc _].
  destruct (reachable_first_refit c _ Hnext) as [_ Hinv].
  destruct (return_is_taken_in a features) as (Hbad & Hacc & _).
  destruct (f_vals features !! "return_1") as [r|] eqn:Hret;
    [|rewrite Hbad; auto].
  destruct (isNaN r) eqn:Hnan; [rewrite Hbad; [reflexivity | right; eauto]|].
  rewrite (Hacc r eq_refl Hnan) in Hinv, Hshort.
  destruct (coefficients (accumulate Math_pow a r)) as [fit|] eqn:Hfit.
  - apply (AR4Props.generateSignal_null _ _ _ a features r fit Hret Hnan Hfit).
    rewrite (Hinv Hshort), Hc. exact Hmin.
  - exfalso. unfold accumulate in Hfit. cbv zeta in Hfit. cbn [coefficients] in Hfit.
    destruct (coefficients a); [|now rewrite orb_true_r in Hfit].
    destruct (_ || _); discriminate.
Qed.

(** X14: What an emitted signal guarantees: at least 4 returns are held, a fit
    is stored whose [rSquared] is the signal's confidence and is not below
    [minRSquared], the score lies in [[-1, 1]], and the signal passes
    [AlphaSignalSchema]. *)
Theorem emitted_signal_quality (a a' : AR4Alpha) (features : Features)
    (s : AlphaSignal) :
  generateSignal Math_pow toFixed Number_toString features a = (a', Return (Some s)) ->
  AlphaSignalSchema_ok s = true
  /\ (4 <= length (returnHistory a'))%nat
  /\ exists fit,
       coefficients a' = Some fit
       /\ sig_conf s = rSquared fit
       /\ lt (rSquared fit) (minRSquared (config a)) = false
       /\ le (-1)%float (sig_score s) = true /\ le (sig_score s) 1%float = true.
Proof.
  unfold generateSignal.
  destruct (f_vals features !! "return_1") as [r|]; [|discriminate].
  destruct (isNaN r); [discriminate|].
  cbv [bind get put ret lift AlphaSignalSchema_parse].
  match goal with
  | |- context [match ?x with Some _ => _ | None => _ end] =>
      match x with
      | context [fitAR4] => destruct x as [fit|] eqn:Hfit
      end
  end; [|discriminate].
  destruct (length _ <? 4)%nat eqn:Hlen; [discriminate|].
  destruct (lt (rSquared fit) (minRSquared (config a))) eqn:Hlow; [discriminate|].
  destruct (AlphaSignalSchema_ok _) eqn:Hok; [|discriminate].
  intros H. injection H as <- <-. cbn [coefficients returnHistory sig_conf sig_score].
  split; [exact Hok|]. split; [apply Nat.ltb_ge in Hlen; exact Hlen|].
  exists fit. repeat split; auto.
  - unfold AlphaSignalSchema_ok in Hok. cbn [sig_score] in Hok. split_andb.
    match goal with
    | H : z_min (-1)%float ?x = true |- le _ ?x = true =>
        unfold z_min, z_number in H; split_andb;
        apply (not_lt_ge x (-1)%float); [now apply negb_true_iff | reflexivity |
                                          now apply negb_true_iff]
    end.
  - unfold AlphaSignalSchema_ok in Hok. cbn [sig_score] in Hok. split_andb.
    match goal with
    | H : z_max 1%float ?x = true |- le ?x _ = true =>
        unfold z_max, z_number in H; split_andb;
        apply (not_lt_ge 1%float x); [reflexivity | now apply negb_true_iff |
                                       now apply negb_true_iff]
    end.
Qed.

End WithBuiltins.

(** *** Scenarios *)

Lemma invertMatrix_keeps_shape_witness :
  length (invertMatrix Scenarios.diagonalMatrix) = length Scenarios.diagonalMatrix.
Proof.
  apply (invertMatrix_keeps_shape Scenarios.diagonalMatrix).
  repeat constructor.
Defined.

(** A plugin of the default configuration after one return. *)
Lemma history_is_bounded_witness :
  let a := fst (generateSignal Scenarios.somePow Scenarios.someToFixed
                  Scenarios.someToString (Scenarios.returnFeatures 0.01%float)
                  {| config := Scenarios.defaultAR4Config; coefficients := None;
            returnHistory := [] |}) in
  config a = Scenarios.defaultAR4Config
  /\ gt (of_nat (length (returnHistory a))) (fitWindow Scenarios.defaultAR4Config) = false.
Proof.
  cbv zeta.
  apply (history_is_bounded Scenarios.somePow Scenarios.someToFixed
           Scenarios.someToString Scenarios.defaultAR4Config).
  - vm_compute; reflexivity.
  - apply reach_generateSignal, reach_new.
Defined.

(** The first return of a fresh plugin gives no signal. *)
Lemma no_signal_before_twenty_returns_witness :
  snd (generateSignal Scenarios.somePow Scenarios.someToFixed
         Scenarios.someToString (Scenarios.returnFeatures 0.01%float)
         {| config := Scenarios.defaultAR4Config; coefficients := None;
            returnHistory := [] |}) = Return None.
Proof.
  apply (no_signal_before_twenty_returns Scenarios.somePow Scenarios.someToFixed
           Scenarios.someToString Scenarios.defaultAR4Config).
  - vm_compute; reflexivity.
  - apply reach_new.
  - vm_compute. lia.
Defined.

(** A plugin without a quality threshold emits on its fifth return. *)
Lemma emitted_signal_quality_witness :
  exists a' s,
    generateSignal Scenarios.somePow Scenarios.someToFixed Scenarios.someToString
      (Scenarios.returnFeatures 0.01%float) Scenarios.primedAR4 = (a', Return (Some s))
    /\ AlphaSignalSchema_ok s = true.
Proof.
  eexists _, _. split; [vm_compute; reflexivity|].
  eapply proj1,
    (emitted_signal_quality Scenarios.somePow Scenarios.someToFixed
       Scenarios.someToString Scenarios.primedAR4 _
       (Scenarios.returnFeatures 0.01%float)).
  vm_compute; reflexivity.
Defined.

End AR4More.

(* ===================================================================== *)
(** ** The indicators *)
(* ===================================================================== *)

Module IndicatorProps.
Import JS Indicators FloatFacts NumberFacts.

Lemma isNaN_NaN : isNaN NaN = true.
Proof. reflexivity. Qed.

(** [values.slice(-period)] of a list that ends with a window of [period]
    values is that window. *)
Lemma slice_from_window (before window : vector) (period : Z) :
  0 < period -> Z.of_nat (length window) = period ->
  slice_from (- period) (before ++ window) = window.
Proof.
  intros Hpos Hlen. unfold slice_from.
  destruct (Z.ltb_spec (- period) 0); [|lia].
  rewrite length_app.
  replace (Z.to_nat (Z.max (Z.of_nat (length before + length window) + - period) 0))
    with (length before) by lia.
  apply drop_app_length.
Qed.

(** X15: The windowed indicators read the last [period] values and nothing else:
    what comes before the window does not change [sma], [wma] or
    [variance]. *)
Theorem window_is_all_that_counts
    (Math_pow : number -> number -> number)
    (before window : vector) (period : Z) :
  0 < period -> Z.of_nat (length window) = period ->
  sma (before ++ window) period = sma window period
  /\ wma (before ++ window) period = wma window period
  /\ variance Math_pow (before ++ window) period = variance Math_pow window period.
Proof.
  intros Hpos Hlen.
  pose proof (slice_from_window before window period Hpos Hlen) as Hb.
  pose proof (slice_from_window [] window period Hpos Hlen) as Hw.
  cbn [app] in Hw.
  assert (Hlb : (Z.of_nat (length (before ++ window)) <? period) = false)
    by (rewrite length_app; apply Z.ltb_ge; lia).
  assert (Hlw : (Z.of_nat (length window) <? period) = false)
    by (apply Z.ltb_ge; lia).
  unfold sma, wma, variance. rewrite Hlb, Hlw, Hb, Hw. auto.
Qed.

Lemma ema_seed (values : vector) (period : Z) (prev : option number) :
  prev = None \/ (exists x, prev = Some x /\ isNaN x = true) ->
  ema values period prev = sma values period.
Proof.
  intros Hprev. unfold ema, sma.
  destruct (Z.leb_spec period 0) as [Hp|Hp].
  - now rewrite !orb_true_r.
  - rewrite !orb_false_r.
    destruct (length values =? 0)%nat eqn:Hlen.
    + apply Nat.eqb_eq in Hlen. rewrite Hlen.
      destruct (Z.ltb_spec (Z.of_nat 0) period); [reflexivity | lia].
    + destruct Hprev as [-> | (x & -> & ->)];
        destruct (Z.of_nat (length values) <? period); reflexivity.
Qed.

(** X16: The two modes of [ema]. Without a previous EMA (or with a NaN one) the
    result is the SMA of the same values, in every case including the NaN
    ones. With a previous EMA only the latest value is read: the result is
    [(latest - prev) * 2 / (period + 1) + prev], however short the list. *)
Theorem ema_modes (values : vector) (period : Z) :
  (forall prev,
      prev = None \/ (exists x, prev = Some x /\ isNaN x = true) ->
      ema values period prev = sma values period)
  /\ (forall earlier latest prev,
        values = earlier ++ [latest] -> 0 < period -> isNaN prev = false ->
        ema values period (Some prev) =
          ((latest - prev) * (2 / (of_Z period + 1)) + prev)%float).
Proof.
  split.
  - intros prev Hprev. now apply ema_seed.
  - intros earlier latest prev -> Hp Hprev. unfold ema.
    rewrite length_app. cbn [length].
    destruct (Nat.eqb_spec (length earlier + 1) 0); [lia|].
    destruct (Z.leb_spec period 0); [lia|]. cbn [orb]. rewrite Hprev.
    unfold AR4.at1.
    replace (length earlier + 1 - 1)%nat with (length earlier) by lia.
    rewrite lookup_app_r by lia. rewrite Nat.sub_diag. reflexivity.
Qed.

(** X17: The MACD line is a difference of simple averages: [macd] calls [ema]
    without a previous value, which is [sma]. Whenever the line is a number
    it equals [sma(values, fast) - sma(values, slow)]; whenever the histogram
    is a number it equals line minus signal; and fewer than [slowPeriod]
    values give NaN for all three. *)
Theorem macd_line_is_sma_difference (values : vector) (fast slow signal : Z) :
  let r := macd values (Some fast) (Some slow) (Some signal) in
  (Z.of_nat (length values) < slow -> r = nan_result)
  /\ (isNaN (macd_line r) = false ->
      macd_line r = (sma values fast - sma values slow)%float)
  /\ (isNaN (histogram r) = false ->
      histogram r = (macd_line r - signal_line r)%float).
Proof.
  cbv zeta. unfold macd. cbn [from_option id]. cbv zeta.
  rewrite (ema_seed values fast None), (ema_seed values slow None) by auto.
  destruct (Z.ltb_spec (Z.of_nat (length values)) slow) as [Hshort|Hlong].
  - split; [reflexivity|]. split; discriminate.
  - split; [lia|].
    destruct (isNaN (sma values fast) || isNaN (sma values slow));
      [split; discriminate|].
    destruct (_ >=? _); [|split; [reflexivity | discriminate]].
    destruct (negb _); split; try reflexivity; discriminate.
Qed.

(** X18: Too little data is never an exception: every indicator returns NaN when
    it is given fewer values than its period needs, or a period that is not
    positive. *)
Theorem short_input_gives_nan
    (Math_pow : number -> number -> number) (Math_sqrt : number -> number)
    (values highs lows closes : vector) (period : Z) :
  (Z.of_nat (length values) < period \/ period <= 0 ->
   sma values period = NaN /\ wma values period = NaN
   /\ ema values period None = NaN
   /\ variance Math_pow values period = NaN
   /\ stddev Math_pow Math_sqrt values period = NaN
   /\ rsi values period = NaN
   /\ macd values None (Some period) None = nan_result)
  /\ (period <= 1 -> stddev Math_pow Math_sqrt values period = NaN)
  /\ (Z.of_nat (length values) < period + 1 -> rsi values period = NaN)
  /\ (Z.of_nat (length highs) < period \/ Z.of_nat (length lows) < period
      \/ Z.of_nat (length closes) < period \/ period <= 0 ->
      atr highs lows closes period = NaN).
Proof.
  assert (Hsma : Z.of_nat (length values) < period \/ period <= 0 ->
                 sma values period = NaN).
  { intros H. unfold sma.
    replace ((Z.of_nat (length values) <? period) || (period <=? 0)) with true;
      [reflexivity|].
    symmetry. apply orb_true_iff. destruct H; [left; apply Z.ltb_lt | right; apply Z.leb_le]; lia. }
  assert (Hvar : Z.of_nat (length values) < period \/ period <= 1 ->
                 variance Math_pow values period = NaN).
  { intros H. unfold variance.
    replace ((Z.of_nat (length values) <? period) || (period <=? 1)) with true;
      [reflexivity|].
    symmetry. apply orb_true_iff. destruct H; [left; apply Z.ltb_lt | right; apply Z.leb_le]; lia. }
  assert (Hrsi : Z.of_nat (length values) < period + 1 \/ period <= 0 ->
                 rsi values period = NaN).
  { intros H. unfold rsi.
    replace ((Z.of_nat (length values) <? period + 1) || (period <=? 0)) with true;
      [reflexivity|].
    symmetry. apply orb_true_iff. destruct H; [left; apply Z.ltb_lt | right; apply Z.leb_le]; lia. }
  split; [|split; [|split]].
  - intros H. split; [auto|]. split; [|split; [|split; [|split; [|split]]]].
    + unfold wma.
      replace ((Z.of_nat (length values) <? period) || (period <=? 0)) with true;
        [reflexivity|].
      symmetry. apply orb_true_iff.
      destruct H; [left; apply Z.ltb_lt | right; apply Z.leb_le]; lia.
    + rewrite ema_seed; auto.
    + apply Hvar. lia.
    + unfold stddev. rewrite Hvar by lia. reflexivity.
    + apply Hrsi. lia.
    + unfold macd. cbn [from_option id]. cbv zeta.
      destruct (Z.ltb_spec (Z.of_nat (length values)) period); [reflexivity|].
      destruct (ema_modes values period) as [He _]. rewrite (He None) by auto.
      rewrite Hsma by lia. now rewrite orb_true_r.
  - intros H. unfold stddev. rewrite Hvar by lia. reflexivity.
  - intros H. apply Hrsi. lia.
  - intros H. unfold atr.
    replace ((Z.of_nat (Nat.min (Nat.min (length highs) (length lows)) (length closes))
              <? period) || (period <=? 0)) with true; [reflexivity|].
    symmetry. apply orb_true_iff.
    destruct (Z.leb_spec period 0); [right; reflexivity|left].
    apply Z.ltb_lt. lia.
Qed.

(** [AR4.at1] reads a prefix like the whole list, below the cut. *)
Lemma at1_take (l : vector) (n i : nat) :
  (i < n)%nat -> AR4.at1 (take n l) i = AR4.at1 l i.
Proof. intros H. unfold AR4.at1. now rewrite lookup_take_lt. Qed.

(** X19: Arrays of unequal length: [atr] reads the common prefix only - the
    bars beyond the shortest of the three arrays do not count. *)
Theorem atr_reads_common_prefix (highs lows closes : vector) (period : Z) :
  let len := Nat.min (Nat.min (length highs) (length lows)) (length closes) in
  atr highs lows closes period =
    atr (take len highs) (take len lows) (take len closes) period.
Proof.
  cbv zeta. set (len := Nat.min _ _).
  unfold atr. rewrite !length_take. fold len.
  replace (Nat.min (Nat.min (Nat.min len (length highs)) (Nat.min len (length lows)))
                   (Nat.min len (length closes))) with len by lia.
  destruct ((Z.of_nat len <? period) || (period <=? 0)); [reflexivity|].
  f_equal. unfold trueRanges, AR4.range. apply map_ext_in.
  intros i Hi. apply in_seq in Hi. cbv beta zeta.
  rewrite !(at1_take _ len i) by lia.
  destruct (Nat.eqb_spec i 0); [reflexivity|].
  rewrite (at1_take _ len (i - 1)) by lia. reflexivity.
Qed.

(** *** Scenarios *)

(** The last three of five values. *)
Lemma window_is_all_that_counts_witness :
  sma ([1; 2] ++ [3; 4; 5])%float 3 = sma [3; 4; 5]%float 3.
Proof.
  apply (window_is_all_that_counts Scenarios.somePow [1; 2]%float [3; 4; 5]%float 3).
  - lia.
  - reflexivity.
Defined.

End IndicatorProps.

(* ===================================================================== *)
(** ** Facts on magnitude and sign *)
(* ===================================================================== *)

Module SignFacts.
Import JS FloatFacts NumberFacts.

Lemma SFabs_positive x : SFltb (S754_zero false) x = true -> SFabs x = x.
Proof. sf_cases x; simpl; try discriminate; reflexivity. Qed.

Lemma SFabs_below x c :
  SFltb c (SFabs x) = true -> SFltb (S754_zero false) x = false ->
  SFltb x (SFopp c) = true.
Proof.
  unfold SFltb.
  sf_cases x; sf_cases c; simpl; try discriminate; try reflexivity.
  all: cmp_cases; simpl; try discriminate; try reflexivity; try lia.
Qed.

Lemma SFabs_above x c :
  SFltb x (SFopp c) = true -> SFltb c (SFabs x) = true.
Proof.
  unfold SFltb.
  sf_cases x; sf_cases c; simpl; try discriminate; try reflexivity.
  all: cmp_cases; simpl; try discriminate; try reflexivity; try lia.
Qed.

Lemma SFopp_nan x : SFopp x = S754_nan -> x = S754_nan.
Proof. destruct x; simpl; congruence. Qed.

(** The magnitude of a number above zero is the number. *)
Lemma abs_positive (x : number) : gt x 0%float = true -> Math_abs x = x.
Proof.
  unfold gt, Math_abs. rewrite FloatAxioms.ltb_spec. intros H.
  apply Prim2SF_inj. rewrite abs_spec. now apply SFabs_positive.
Qed.

(** A number that is not above zero and whose magnitude exceeds [c] is
    below [-c]. *)
Lemma abs_exceeds_negative (x c : number) :
  gt (Math_abs x) c = true -> gt x 0%float = false -> lt x (- c)%float = true.
Proof.
  unfold gt, lt, Math_abs.
  rewrite !FloatAxioms.ltb_spec, abs_spec, opp_spec. apply SFabs_below.
Qed.

(** A number below [-c] has a magnitude that exceeds [c]. *)
Lemma below_negative_abs (x c : number) :
  lt x (- c)%float = true -> gt (Math_abs x) c = true.
Proof.
  unfold gt, lt, Math_abs.
  rewrite !FloatAxioms.ltb_spec, abs_spec, opp_spec. apply SFabs_above.
Qed.

(** The opposite of NaN is NaN. *)
Lemma opp_nan (x : number) : isNaN x = true -> isNaN (- x)%float = true.
Proof.
  intros H. destruct (isNaN (- x)%float) eqn:E; [reflexivity|].
  exfalso. apply isNaN_spec in H.
  assert (Hx : Prim2SF (- x)%float = S754_nan) by (rewrite opp_spec, H; reflexivity).
  unfold isNaN, PrimFloat.is_nan in E. apply negb_false_iff in E.
  rewrite FloatAxioms.eqb_spec, Hx in E. discriminate.
Qed.

End SignFacts.

(* ===================================================================== *)
(** ** The risk rules *)
(* ===================================================================== *)

Module RiskProps.
Import JS Risk FloatFacts NumberFacts SignFacts.

(** A verdict blocks exactly when it carries a reason. *)
Lemma verdict_shape (ctx : RiskContext) :
  Forall (fun v => allow v = false <-> reason v <> None)
    [maxDailyLossRule ctx; maxExposureRule ctx; leverageCapRule ctx;
     staleFeedRule ctx].
Proof.
  unfold maxDailyLossRule, maxExposureRule, leverageCapRule, staleFeedRule.
  repeat (constructor; [case_match; cbn; split; congruence|]). constructor.
Qed.

(** X20: The numeric rules block on strict excess only. A reading exactly at its
    limit is allowed, and a reading or a limit that is NaN is allowed too:
    every comparison with NaN is false, so a corrupt number never blocks a
    trade. *)
Theorem numeric_rules_allow_limit_and_nan (ctx : RiskContext) :
  (isNaN (pnl ctx) = true \/ isNaN (maxDailyLoss ctx) = true ->
   maxDailyLossRule ctx = allowed)
  /\ (isNaN (exposure ctx) = true \/ isNaN (maxExposure ctx) = true ->
      maxExposureRule ctx = allowed)
  /\ (isNaN (leverage ctx) = true \/ isNaN (maxLeverage ctx) = true ->
      leverageCapRule ctx = allowed)
  /\ (pnl ctx = (- maxDailyLoss ctx)%float -> maxDailyLossRule ctx = allowed)
  /\ (exposure ctx = maxExposure ctx -> maxExposureRule ctx = allowed)
  /\ (leverage ctx = maxLeverage ctx -> leverageCapRule ctx = allowed).
Proof.
  unfold maxDailyLossRule, maxExposureRule, leverageCapRule, gt.
  repeat split.
  - intros [H | H].
    + now rewrite (lt_nan_l _ _ H).
    + now rewrite (lt_nan_r _ _ (opp_nan _ H)).
  - intros [H | H]; [now rewrite (lt_nan_r _ _ H) | now rewrite (lt_nan_l _ _ H)].
  - intros [H | H]; [now rewrite (lt_nan_r _ _ H) | now rewrite (lt_nan_l _ _ H)].
  - intros ->. now rewrite lt_irrefl.
  - intros ->. change (PrimFloat.ltb ?a ?b) with (lt a b). now rewrite lt_irrefl.
  - intros ->. change (PrimFloat.ltb ?a ?b) with (lt a b). now rewrite lt_irrefl.
Qed.

End RiskProps.

(* ===================================================================== *)
(** ** The feature builder *)
(* ===================================================================== *)

Module FactoryProps.
Import JS Core Indicators Factory FloatFacts CoreFacts NumberFacts SignFacts.

(** *** Regime and trend strength *)

Lemma up_iff (t : number) :
  gt (Math_abs t) 0.6%float = true /\ gt t 0%float = true
  <-> gt t 0.6%float = true.
Proof.
  split.
  - intros [Habs Hpos]. now rewrite (abs_positive _ Hpos) in Habs.
  - intros H.
    assert (Hpos : gt t 0%float = true).
    { unfold gt in *. change (PrimFloat.ltb ?a ?b) with (lt a b) in *.
      apply (le_lt_trans _ 0.6%float); [reflexivity | exact H]. }
    split; [|exact Hpos]. now rewrite (abs_positive _ Hpos).
Qed.

Lemma down_iff (t : number) :
  gt (Math_abs t) 0.6%float = true /\ gt t 0%float = false
  <-> lt t (-0.6)%float = true.
Proof.
  split.
  - intros [Habs Hneg]. exact (abs_exceeds_negative _ 0.6%float Habs Hneg).
  - intros H. split; [exact (below_negative_abs _ 0.6%float H)|].
    destruct (gt t 0%float) eqn:E; [|reflexivity].
    unfold gt in E. change (PrimFloat.ltb ?a ?b) with (lt a b) in E.
    pose proof (le_lt_trans _ _ _ (lt_le _ _ E) H) as Hbad.
    vm_compute in Hbad. discriminate.
Qed.

(** X21: The regime, condition by condition: volatile when the volatility
    exceeds 2; otherwise trending up when the trend strength exceeds 0.6 and
    trending down when it is below -0.6; ranging in every other case - in
    particular when the trend strength is NaN. A NaN volatility is never
    volatile. *)
Theorem regime_is_characterised (trendStrength volatility : number) :
  (classifyRegime trendStrength volatility = VOLATILE
     <-> gt volatility 2%float = true)
  /\ (classifyRegime trendStrength volatility = TRENDING_UP
        <-> gt volatility 2%float = false /\ gt trendStrength 0.6%float = true)
  /\ (classifyRegime trendStrength volatility = TRENDING_DOWN
        <-> gt volatility 2%float = false /\ lt trendStrength (-0.6)%float = true)
  /\ (isNaN trendStrength = true ->
      classifyRegime trendStrength volatility = RANGING
      \/ classifyRegime trendStrength volatility = VOLATILE)
  /\ (isNaN volatility = true ->
      classifyRegime trendStrength volatility <> VOLATILE).
Proof.
  pose proof (up_iff trendStrength) as Hup.
  pose proof (down_iff trendStrength) as Hdown.
  assert (Hnu : isNaN trendStrength = true -> gt trendStrength 0.6%float = false).
  { intros Hnan. unfold gt. change (PrimFloat.ltb ?a ?b) with (lt a b).
    exact (lt_nan_r _ _ Hnan). }
  assert (Hnd : isNaN trendStrength = true -> lt trendStrength (-0.6)%float = false).
  { intros Hnan. exact (lt_nan_l _ _ Hnan). }
  assert (Hnv : isNaN volatility = true -> gt volatility 2%float = false).
  { intros Hnan. unfold gt. change (PrimFloat.ltb ?a ?b) with (lt a b).
    exact (lt_nan_r _ _ Hnan). }
  unfold classifyRegime.
  destruct (gt volatility 2%float);
    destruct (gt (Math_abs trendStrength) 0.6%float);
    destruct (gt trendStrength 0%float);
    destruct (gt trendStrength 0.6%float);
    destruct (lt trendStrength (-0.6)%float);
    destruct (isNaN trendStrength);
    destruct (isNaN volatility);
    try (destruct (proj1 Hup (conj eq_refl eq_refl)); fail);
    try (destruct (proj1 Hdown (conj eq_refl eq_refl)); fail);
    try (pose proof (proj1 Hup (conj eq_refl eq_refl)); discriminate);
    try (pose proof (proj1 Hdown (conj eq_refl eq_refl)); discriminate);
    try (destruct (proj2 Hup eq_refl); discriminate);
    try (destruct (proj2 Hdown eq_refl); discriminate);
    try (specialize (Hnu eq_refl); discriminate);
    try (specialize (Hnd eq_refl); discriminate);
    try (specialize (Hnv eq_refl); discriminate);
    repeat split; try discriminate; auto; try (intros [? ?]; discriminate).
Qed.

(** X22: The trend strength is clamped: it lies in [[-1, 1]], or it is NaN (too
    few bars, an undefined average, a zero or undefined ATR, or a quotient
    that is NaN). *)
Theorem trend_strength_is_clamped (bars : list Bar) (config : FeatureConfig) :
  isNaN (computeTrendStrength bars config) = true
  \/ (le (-1)%float (computeTrendStrength bars config) = true
      /\ le (computeTrendStrength bars config) 1%float = true).
Proof.
  unfold computeTrendStrength.
  destruct (_ <? _); [left; reflexivity|]. cbv zeta.
  destruct (_ || _); [left; reflexivity|].
  match goal with
  | |- context [Math_max (-1)%float (Math_min 1%float ?x)] => set (q := x)
  end.
  destruct (clamp_spec (-1)%float 1%float q eq_refl) as [Hnum Hnan].
  destruct (isNaN q) eqn:E.
  - left. rewrite (Hnan eq_refl). reflexivity.
  - right. exact (Hnum eq_refl).
Qed.

(** *** Indicators on short input *)

Lemma omap_length_le {A B : Type} (f : A -> option B) (l : list A) :
  (length (omap f l) <= length l)%nat.
Proof.
  induction l as [|a l IH]; [reflexivity|].
  change (omap f (a :: l))
    with (match f a with Some y => y :: omap f l | None => omap f l end).
  destruct (f a); simpl; lia.
Qed.

Lemma zrange_length (from to : Z) :
  length (zrange from to) = Z.to_nat (to - from).
Proof. unfold zrange. now rewrite length_map, length_seq. Qed.

Lemma macd_short_history
    (values : vector) (fastPeriod slowPeriod signalPeriod : Z) :
  Z.of_nat (length values) < slowPeriod + signalPeriod - 1 ->
  isNaN (signal_line (macd values (Some fastPeriod) (Some slowPeriod)
                           (Some signalPeriod))) = true
  /\ isNaN (histogram (macd values (Some fastPeriod) (Some slowPeriod)
                            (Some signalPeriod))) = true.
Proof.
  intros Hshort. unfold macd. cbn [default from_option id]. cbv zeta.
  destruct (_ <? slowPeriod) eqn:Hslow; [split; reflexivity|].
  destruct (_ || _); [split; reflexivity|].
  apply Z.ltb_ge in Hslow.
  destruct (_ >=? signalPeriod) eqn:Hlen.
  - assert (Hsig : signalPeriod <= 0).
    { apply Z.geb_le in Hlen.
      assert (Hle : (length (macdHistory values fastPeriod slowPeriod)
                     <= length (zrange (slowPeriod - 1) (Z.of_nat (length values))))%nat)
        by apply omap_length_le.
      rewrite zrange_length in Hle. lia. }
    assert (Hnan : ema (macdHistory values fastPeriod slowPeriod) signalPeriod None = NaN).
    { unfold ema. apply Z.leb_le in Hsig. rewrite Hsig.
      now rewrite orb_true_r. }
    rewrite Hnan. split; reflexivity.
  - split; reflexivity.
Qed.

(** *** What the builder throws *)

Lemma config_parse_idempotent (i : FeatureConfigInput) (c : FeatureConfig) :
  FeatureConfigSchema_parse i = Return c ->
  FeatureConfigSchema_parse (as_input c) = Return c.
Proof.
  destruct i as [w r a f s g [[l h]|]];
    unfold FeatureConfigSchema_parse; cbv zeta;
    (destruct (FeatureConfigSchema_ok _) eqn:E; [|discriminate]);
    intros H; injection H as <-;
    cbn -[FeatureConfigSchema_ok] in *; now rewrite E.
Qed.


Section WithBuiltins.

Variable Math_log : number -> number.
Variable Math_pow : number -> number -> number.
Variable Math_sqrt : number -> number.
Variable Number_toString : number -> string.

Local Abbreviation buildFeaturesSync :=
  (Factory.buildFeaturesSync Math_log Math_pow Math_sqrt Number_toString).
Local Abbreviation featureValues :=
  (Factory.featureValues Math_log Math_pow Math_sqrt).
Local Abbreviation featureRegime := (Factory.featureRegime Math_pow Math_sqrt).

Local Abbreviation candidate := (Factory.candidate Math_log Math_pow Math_sqrt).

Lemma buildFeaturesSync_steps
    (bars : list Bar) (config : option FeatureConfigInput) (cfg : FeatureConfig) :
  FeatureConfigSchema_parse (default empty_input config) = Return cfg ->
  buildFeaturesSync bars config =
    if forallb BarSchema_ok bars then
      if Z.of_nat (length bars) <? window cfg then
        Throw (JsError (insufficient_data Number_toString (of_Z (window cfg))
                          (of_nat (length bars))))
      else
        match bars !! (length bars - 1)%nat with
        | None => Throw (JsError "Cannot read properties of undefined")
        | Some latestBar => FeaturesSchema_parse (candidate bars cfg latestBar)
        end
    else Throw (ZodError "Bar").
Proof.
  intros Hcfg. unfold Factory.buildFeaturesSync, parseBars.
  destruct config as [i|]; cbn [default from_option id] in Hcfg.
  - rewrite Hcfg. destruct (forallb _ _); reflexivity.
  - rewrite Hcfg, (config_parse_idempotent _ _ Hcfg).
    destruct (forallb _ _); reflexivity.
Qed.

Lemma buildFeaturesSync_config
    (bars : list Bar) (config : option FeatureConfigInput) (f : Features) :
  buildFeaturesSync bars config = Return f ->
  exists cfg, FeatureConfigSchema_parse (default empty_input config) = Return cfg.
Proof.
  destruct (FeatureConfigSchema_parse (default empty_input config)) as [cfg|e] eqn:E.
  - intros _. now exists cfg.
  - unfold Factory.buildFeaturesSync, parseBars.
    destruct config as [i|]; cbn [default from_option id] in E.
    + rewrite E. destruct (forallb _ _); discriminate.
    + rewrite E. discriminate.
Qed.

Lemma built_features_facts
    (bars : list Bar) (config : option FeatureConfigInput) (f : Features) :
  buildFeaturesSync bars config = Return f ->
  exists cfg latestBar,
    FeatureConfigSchema_parse (default empty_input config) = Return cfg
    /\ forallb BarSchema_ok bars = true
    /\ window cfg <= Z.of_nat (length bars)
    /\ bars !! (length bars - 1)%nat = Some latestBar
    /\ BarSchema_ok latestBar = true
    /\ f = candidate bars cfg latestBar
    /\ FeaturesSchema_ok f = true.
Proof.
  intros H. destruct (buildFeaturesSync_config _ _ _ H) as [cfg Hcfg].
  rewrite (buildFeaturesSync_steps _ _ _ Hcfg) in H.
  destruct (forallb BarSchema_ok bars) eqn:Hbars; [|discriminate].
  destruct (_ <? _) eqn:Hwin; [discriminate|].
  destruct (bars !! _) as [latestBar|] eqn:Hlast; [|discriminate].
  unfold FeaturesSchema_parse in H.
  destruct (FeaturesSchema_ok _) eqn:Hok; [|discriminate].
  injection H as <-. exists cfg, latestBar.
  apply Z.ltb_ge in Hwin. repeat split; try assumption; try reflexivity.
  rewrite forallb_forall in Hbars. apply Hbars.
  apply list_elem_of_In. eapply list_elem_of_lookup_2. exact Hlast.
Qed.

Ltac find_key :=
  cbn [f_vals Factory.candidate]; unfold Factory.featureValues; cbv zeta;
  rewrite ?lookup_insert_ne by done; apply lookup_insert_eq.


Lemma short_history_value (bars : list Bar) (cfg : FeatureConfig) (latestBar : Bar) :
  Z.of_nat (length bars) < 20
  \/ Z.of_nat (length bars) < 2
  \/ Z.of_nat (length bars) < rsiPeriod cfg + 1
  \/ Z.of_nat (length bars) < atrPeriod cfg
  \/ Z.of_nat (length bars) < macdSlow cfg + macdSignal cfg - 1 ->
  exists k v, featureValues bars cfg latestBar !! k = Some v /\ isNaN v = true.
Proof.
  intros [H | [H | [H | [H | H]]]].
  - exists "sma_20", (sma (map b_c bars) 20). split; [find_key|].
    unfold sma. rewrite length_map.
    apply Z.ltb_lt in H. rewrite H. reflexivity.
  - exists "return_1", (fst (computeReturns Math_log bars)). split; [find_key|].
    unfold computeReturns.
    assert (Hlt : (length bars <? 2)%nat = true) by (apply Nat.ltb_lt; lia).
    rewrite Hlt. reflexivity.
  - exists "rsi_14", (rsi (map b_c bars) (rsiPeriod cfg)). split; [find_key|].
    unfold rsi. rewrite length_map.
    apply Z.ltb_lt in H. rewrite H. reflexivity.
  - exists "atr_14",
      (atr (map b_h bars) (map b_l bars) (map b_c bars) (atrPeriod cfg)).
    split; [find_key|].
    unfold atr. rewrite !length_map, !Nat.min_id. cbv zeta.
    apply Z.ltb_lt in H. rewrite H. reflexivity.
  - exists "macd_signal",
      (signal_line (macd (map b_c bars) (Some (macdFast cfg)) (Some (macdSlow cfg))
                         (Some (macdSignal cfg)))).
    split; [find_key|].
    apply macd_short_history. now rewrite length_map.
Qed.


(** X25: What a returned record looks like. It passes [FeaturesSchema]; its
    header is the last bar's; [close] is the last bar's close, which is above
    zero; each of the fourteen keys holds a number that is not NaN, and there
    is no other key; the regime is one of the four labels. *)
Theorem built_features_shape
    (bars : list Bar) (config : option FeatureConfigInput) (f : Features) :
  buildFeaturesSync bars config = Return f ->
  FeaturesSchema_ok f = true
  /\ (exists latestBar,
        bars !! (length bars - 1)%nat = Some latestBar
        /\ f_t f = b_t latestBar /\ f_exch f = b_exch latestBar
        /\ f_symbol f = b_symbol latestBar /\ f_tf f = b_tf latestBar
        /\ f_vals f !! "close" = Some (b_c latestBar)
        /\ z_positive (b_c latestBar) = true)
  /\ Forall (fun k => exists v, f_vals f !! k = Some v /\ isNaN v = false) featureKeys
  /\ (forall k, is_Some (f_vals f !! k) -> k ∈ featureKeys)
  /\ (exists r, f_regime f = Some (regime_value r)).
Proof.
  intros H.
  destruct (built_features_facts _ _ _ H)
    as (cfg & latestBar & Hcfg & Hbars & Hwin & Hlast & Hbar & -> & Hok).
  split; [exact Hok|]. split; [|split; [|split]].
  - exists latestBar. split; [exact Hlast|]. do 4 (split; [reflexivity|]).
    split; [find_key|].
    unfold BarSchema_ok in Hbar. split_andb. assumption.
  - unfold featureKeys.
    repeat (constructor;
            [match goal with
             | |- exists v, _ !! ?k = _ /\ _ =>
                 eexists; split;
                 [find_key | eapply (valid_features_not_nan _ k _ Hok); find_key]
             end|]).
    constructor.
  - intros k [v Hk]. cbn [f_vals Factory.candidate] in Hk.
    unfold Factory.featureValues in Hk. cbv zeta in Hk.
    unfold featureKeys.
    repeat (apply lookup_insert_Some in Hk;
            destruct Hk as [[<- _] | [_ Hk]];
            [apply list_elem_of_In; simpl; tauto|]).
    rewrite lookup_empty in Hk. discriminate.
  - eexists. reflexivity.
Qed.

(** X26: The bars a returned record was built from: all valid, and at least as
    many as the window and as every indicator needs - 20 for the mean (also
    under a smaller window), [rsiPeriod + 1], [atrPeriod], and
    [macdSlow + macdSignal - 1]; 34 under the default configuration. *)
Theorem builder_needs_history
    (bars : list Bar) (config : option FeatureConfigInput) (f : Features) :
  buildFeaturesSync bars config = Return f ->
  forallb BarSchema_ok bars = true
  /\ exists cfg,
       FeatureConfigSchema_parse (default empty_input config) = Return cfg
       /\ window cfg <= Z.of_nat (length bars)
       /\ 20 <= Z.of_nat (length bars)
       /\ rsiPeriod cfg + 1 <= Z.of_nat (length bars)
       /\ atrPeriod cfg <= Z.of_nat (length bars)
       /\ macdSlow cfg + macdSignal cfg - 1 <= Z.of_nat (length bars)
       /\ (config = None -> 34 <= Z.of_nat (length bars)).
Proof.
  intros H.
  destruct (built_features_facts _ _ _ H)
    as (cfg & latestBar & Hcfg & Hbars & Hwin & Hlast & Hbar & -> & Hok).
  split; [exact Hbars|]. exists cfg. split; [exact Hcfg|]. split; [exact Hwin|].
  assert (Hno : ~ (Z.of_nat (length bars) < 20
                   \/ Z.of_nat (length bars) < 2
                   \/ Z.of_nat (length bars) < rsiPeriod cfg + 1
                   \/ Z.of_nat (length bars) < atrPeriod cfg
                   \/ Z.of_nat (length bars) < macdSlow cfg + macdSignal cfg - 1)).
  { intros Hshort.
    destruct (short_history_value bars cfg latestBar Hshort) as (k & v & Hk & Hnan).
    rewrite (valid_features_not_nan _ k v Hok Hk) in Hnan. discriminate. }
  repeat split; try lia.
  intros ->. cbn [default from_option id] in Hcfg.
  vm_compute in Hcfg. injection Hcfg as <-. cbn [macdSlow macdSignal] in Hno. lia.
Qed.

(** *** The builder in front of the plugins *)

Variable toFixed : number -> nat -> string.

(** X27: A record the builder returned always closes a position on a weak
    signal: for a constructed policy in a position and a valid signal with
    [|score| < exitThreshold], [generateAction] returns the close action at
    the last bar's close and leaves the policy flat. The builder's record
    carries [atr_14] and a [close] above zero, so the call cannot take the
    null path or throw. *)
Theorem built_features_close_position
    (bars : list Bar) (config : option FeatureConfigInput) (features : Features)
    (p : Policy.ThresholdAtrPolicy) (signal : AlphaSignal) (cur : Side) :
  buildFeaturesSync bars config = Return features ->
  Policy.constructed p ->
  Policy.inPosition p cur ->
  AlphaSignalSchema_ok signal = true ->
  lt (Math_abs (sig_score signal)) (Policy.exitThreshold (Policy.config p)) = true ->
  exists latestBar,
    bars !! (length bars - 1)%nat = Some latestBar
    /\ Policy.generateAction signal features p =
         ({| Policy.config := Policy.config p; Policy.state := Policy.flat |},
          Return (Some (Policy.closeAction signal (b_c latestBar) cur
                          (Policy.size (Policy.state p))))).
Proof.
  intros H Hctor Hpos Hsig Hexit.
  destruct (built_features_facts _ _ _ H)
    as (cfg & latestBar & Hcfg & Hbars & Hwin & Hlast & Hbar & -> & Hfeat).
  exists latestBar. split; [exact Hlast|].
  assert (Hprice : z_positive (b_c latestBar) = true).
  { unfold BarSchema_ok in Hbar. split_andb. assumption. }
  assert (Hclose : f_vals (candidate bars cfg latestBar) !! "close"
                   = Some (b_c latestBar)) by find_key.
  assert (Hatr : f_vals (candidate bars cfg latestBar) !! "atr_14"
                 = Some (atr (map b_h bars) (map b_l bars) (map b_c bars)
                             (atrPeriod cfg))) by find_key.
  PolicyProps.enter_generateAction Hsig Hfeat Hatr Hclose.
  destruct Hpos as [Hside Hsize]. rewrite Hside.
  assert (Hnoenter : ge (Math_abs (sig_score signal))
                        (Policy.enterThreshold (Policy.config p)) = false).
  { unfold ge. destruct (PrimFloat.leb _ _) eqn:E; [|reflexivity].
    pose proof (le_lt_trans _ _ _ E Hexit) as Hlt.
    rewrite (PolicyProps.constructed_hysteresis _ Hctor) in Hlt. discriminate. }
  rewrite Hnoenter, andb_false_r, Hexit.
  change (bind (Policy.buildCloseAction signal ?f ?c) (fun a => ret (Some a)) p = ?r)
    with (match Policy.buildCloseAction signal f c p with
          | (s', Return a) => ret (Some a) s'
          | (s', Throw e) => (s', Throw e)
          end = r).
  rewrite (PolicyProps.buildCloseAction_returns p signal _ _ cur
             (conj Hside Hsize) Hsig Hprice).
  reflexivity.
Qed.

(** X28: A record the builder returned reaches both alpha plugins: the MACD
    plugin stores its three MACD values as the previous observation, and the
    AR(4) plugin takes its [return_1] into the return history. Neither takes
    the path of a missing or NaN value. *)
Theorem built_features_reach_the_alphas
    (bars : list Bar) (config : option FeatureConfigInput) (features : Features)
    (m : MACD.MACDAlpha) (a : AR4.AR4Alpha) :
  buildFeaturesSync bars config = Return features ->
  (exists macd signal histogram,
     f_vals features !! "macd" = Some macd
     /\ f_vals features !! "macd_signal" = Some signal
     /\ f_vals features !! "macd_histogram" = Some histogram
     /\ fst (MACD.generateSignal toFixed Number_toString features m) =
          {| MACD.config := MACD.config m;
             MACD.state := MACD.observed macd signal histogram |})
  /\ (exists r,
        f_vals features !! "return_1" = Some r
        /\ fst (AR4.generateSignal Math_pow toFixed Number_toString features a) =
             AR4.accumulate Math_pow a r).
Proof.
  intros H.
  destruct (built_features_facts _ _ _ H)
    as (cfg & latestBar & Hcfg & Hbars & Hwin & Hlast & Hbar & -> & Hok).
  split.
  - eexists _, _, _.
    assert (Hm : f_vals (candidate bars cfg latestBar) !! "macd" = Some _) by find_key.
    assert (Hs : f_vals (candidate bars cfg latestBar) !! "macd_signal" = Some _)
      by find_key.
    assert (Hh : f_vals (candidate bars cfg latestBar) !! "macd_histogram" = Some _)
      by find_key.
    split; [exact Hm|]. split; [exact Hs|]. split; [exact Hh|].
    pose proof (valid_features_not_nan _ _ _ Hok Hm) as Nm.
    pose proof (valid_features_not_nan _ _ _ Hok Hs) as Ns.
    pose proof (valid_features_not_nan _ _ _ Hok Hh) as Nh.
    clear Hok H.
    match type of Hm with _ = Some ?v => generalize dependent v; intros vm Hm Nm end.
    match type of Hs with _ = Some ?v => generalize dependent v; intros vs Hs Ns end.
    match type of Hh with _ = Some ?v => generalize dependent v; intros vh Hh Nh end.
    generalize dependent (candidate bars cfg latestBar). intros f Hm Hs Hh.
    unfold MACD.generateSignal. rewrite Hm, Hs, Hh, Nm, Ns, Nh. cbn [orb].
    cbv [bind get MACD.updateState ret lift AlphaSignalSchema_parse].
    repeat (case_match; simplify_eq); reflexivity.
  - eexists.
    assert (Hr : f_vals (candidate bars cfg latestBar) !! "return_1" = Some _)
      by find_key.
    split; [exact Hr|].
    apply AR4Props.generateSignal_accumulates; [exact Hr|].
    exact (valid_features_not_nan _ _ _ Hok Hr).
Qed.

End WithBuiltins.

(** X23: The signal line of [macd] needs [slowPeriod + signalPeriod - 1] values
    (34 with the default periods 26 and 9): on fewer, the signal line and the
    histogram are both NaN, whatever the MACD line is. *)
Theorem macd_signal_needs_history
    (values : vector) (fastPeriod slowPeriod signalPeriod : option Z) :
  Z.of_nat (length values) < default 26 slowPeriod + default 9 signalPeriod - 1 ->
  isNaN (signal_line (macd values fastPeriod slowPeriod signalPeriod)) = true
  /\ isNaN (histogram (macd values fastPeriod slowPeriod signalPeriod)) = true.
Proof.
  intros Hshort.
  pose proof (macd_short_history values (default 12 fastPeriod)
                (default 26 slowPeriod) (default 9 signalPeriod) Hshort) as H.
  destruct fastPeriod, slowPeriod, signalPeriod; exact H.
Qed.

(** *** Scenarios *)

(** Three values, default periods. *)
Lemma macd_signal_needs_history_witness :
  isNaN (signal_line (macd [1; 2; 3]%float None None None)) = true.
Proof.
  apply (macd_signal_needs_history [1; 2; 3]%float None None None).
  vm_compute; reflexivity.
Defined.


(** Forty rising bars under the default configuration. *)
Lemma built_features_shape_witness :
  Factory.buildFeaturesSync Scenarios.someLog Scenarios.somePow Scenarios.someSqrt
    Scenarios.someToString (Scenarios.risingBars 40) None =
  Return Scenarios.risingFeatures
  /\ FeaturesSchema_ok Scenarios.risingFeatures = true.
Proof.
  assert (Hrun :
            Factory.buildFeaturesSync Scenarios.someLog Scenarios.somePow
              Scenarios.someSqrt Scenarios.someToString (Scenarios.risingBars 40) None =
            Return Scenarios.risingFeatures) by (vm_compute; reflexivity).
  split; [exact Hrun|].
  exact (proj1 (built_features_shape _ _ _ _ _ _ _ Hrun)).
Defined.

Lemma builder_needs_history_witness :
  Factory.buildFeaturesSync Scenarios.someLog Scenarios.somePow Scenarios.someSqrt
    Scenarios.someToString (Scenarios.risingBars 40) None =
  Return Scenarios.risingFeatures
  /\ forallb BarSchema_ok (Scenarios.risingBars 40) = true.
Proof.
  assert (Hrun :
            Factory.buildFeaturesSync Scenarios.someLog Scenarios.somePow
              Scenarios.someSqrt Scenarios.someToString (Scenarios.risingBars 40) None =
            Return Scenarios.risingFeatures) by (vm_compute; reflexivity).
  split; [exact Hrun|].
  exact (proj1 (builder_needs_history _ _ _ _ _ _ _ Hrun)).
Defined.

(** The long of the policy tests, a weak signal, and the record built from
    forty rising bars: the position is closed at the last close. *)
Lemma built_features_close_position_witness :
  exists latestBar,
    Scenarios.risingBars 40 !! (length (Scenarios.risingBars 40) - 1)%nat
      = Some latestBar
    /\ Policy.generateAction (Scenarios.mockSignal 0.2%float) Scenarios.risingFeatures
         (Scenarios.longPolicy Scenarios.defaultPolicyConfig 50000%float 500%float) =
       ({| Policy.config :=
             Policy.config (Scenarios.longPolicy Scenarios.defaultPolicyConfig
                              50000%float 500%float);
           Policy.state := Policy.flat |},
        Return (Some (Policy.closeAction (Scenarios.mockSignal 0.2%float)
                        (b_c latestBar) buy
                        (Policy.size
                           (Policy.state
                              (Scenarios.longPolicy Scenarios.defaultPolicyConfig
                                 50000%float 500%float)))))).
Proof.
  apply (built_features_close_position Scenarios.someLog Scenarios.somePow
           Scenarios.someSqrt Scenarios.someToString
           (Scenarios.risingBars 40) None Scenarios.risingFeatures
           (Scenarios.longPolicy Scenarios.defaultPolicyConfig 50000%float 500%float)
           (Scenarios.mockSignal 0.2%float) buy).
  - vm_compute; reflexivity.
  - apply (PolicyProps.default_policy_constructed
             {| Policy.side := Some buy; Policy.size := 0.02%float |}).
  - split; vm_compute; reflexivity.
  - vm_compute; reflexivity.
  - vm_compute; reflexivity.
Defined.

Lemma built_features_reach_the_alphas_witness :
  exists r,
    f_vals Scenarios.risingFeatures !! "return_1" = Some r
    /\ fst (AR4.generateSignal Scenarios.somePow Scenarios.someToFixed
              Scenarios.someToString Scenarios.risingFeatures Scenarios.primedAR4) =
         AR4.accumulate Scenarios.somePow Scenarios.primedAR4 r.
Proof.
  refine (proj2 (built_features_reach_the_alphas Scenarios.someLog Scenarios.somePow
                   Scenarios.someSqrt Scenarios.someToString Scenarios.someToFixed
                   (Scenarios.risingBars 40) None Scenarios.risingFeatures
                   {| MACD.config := Scenarios.defaultMACDConfig;
                      MACD.state := MACD.initial |}
                   Scenarios.primedAR4 _)).
  vm_compute; reflexivity.
Defined.

End FactoryProps.
